(** * FinCast-fts: the two data scripts

    A shallow embedding of [prepare_inference_data.py] and
    [explore_data.py].  Python strings are lists of characters, table
    cells are a small tagged union, the two-column price table is a list
    of rows together with the dtype of its [date] column, and the scripts'
    effects (printing, reading, writing) are recorded as a trace of
    events.  What the scripts obtain from pandas, numpy, os.path and the
    data provider is collected in interfaces and passed explicitly. *)

From Stdlib Require Import List ZArith Bool Lia Ascii String.
From Stdlib Require Import Permutation Sorted.
Import ListNotations.

Set Implicit Arguments.
Local Open Scope list_scope.

(** ** Python strings *)

Module PyStr.

(** A Python [str] restricted to ASCII text: a list of characters. *)
Definition str := list ascii.

Definition lit (s : string) : str := list_ascii_of_string s.

Definition code (c : ascii) : nat := nat_of_ascii c.

(** [str.isspace] on one ASCII character: tab, LF, VT, FF, CR, the four
    separators 0x1c..0x1f and the space. *)
Definition isspace (c : ascii) : bool :=
  let n := code c in
  ((9 <=? n) && (n <=? 13)) || ((28 <=? n) && (n <=? 31)) || (n =? 32).

(** [\d] on one ASCII character. *)
Definition isdigit (c : ascii) : bool :=
  let n := code c in (48 <=? n) && (n <=? 57).

Fixpoint lstrip (s : str) : str :=
  match s with
  | c :: t => if isspace c then lstrip t else s
  | [] => []
  end.

Definition rstrip (s : str) : str := rev (lstrip (rev s)).

(** [s.strip()] *)
Definition strip (s : str) : str := rstrip (lstrip s).

Definition upper_char (c : ascii) : ascii :=
  let n := code c in
  if (97 <=? n) && (n <=? 122) then ascii_of_nat (n - 32) else c.

(** [s.upper()] *)
Definition upper (s : str) : str := map upper_char s.

Fixpoint startswith (p s : str) : bool :=
  match p, s with
  | [], _ => true
  | a :: p', b :: s' => Ascii.eqb a b && startswith p' s'
  | _ :: _, [] => false
  end.

(** [s.endswith(suffix)] *)
Definition endswith (s suffix : str) : bool :=
  (List.length suffix <=? List.length s) &&
  startswith suffix (skipn (List.length s - List.length suffix) s).

(** [s.replace(old, new)] for a non-empty [old]: scan from the left, and
    after a match resume behind it ([skip] counts the characters of the
    match still to be passed over). *)
Fixpoint replace_from (old new : str) (skip : nat) (s : str) : str :=
  match s with
  | [] => []
  | c :: t =>
      match skip with
      | S k => replace_from old new k t
      | O =>
          if startswith old s
          then new ++ replace_from old new (List.length old - 1) t
          else c :: replace_from old new 0 t
      end
  end.

Definition replace (old new s : str) : str := replace_from old new 0 s.

(** [sep in s] for a one-character [sep]. *)
Definition contains_char (sep : ascii) (s : str) : bool :=
  existsb (Ascii.eqb sep) s.

(** [s.split(sep)] for a one-character [sep]: the list of fields, never
    empty. *)
Fixpoint split (sep : ascii) (s : str) : list str :=
  match s with
  | [] => [[]]
  | c :: t =>
      if Ascii.eqb c sep then [] :: split sep t
      else match split sep t with
           | f :: fs => (c :: f) :: fs
           | [] => [[c]]
           end
  end.

(** [re.sub(r"\D", "", s)]: every character that is not a digit is
    replaced by the empty string. *)
Fixpoint sub_nondigits (s : str) : str :=
  match s with
  | [] => []
  | c :: t => if isdigit c then c :: sub_nondigits t else sub_nondigits t
  end.


(** [old] occurs in [s] as a contiguous block. *)
Fixpoint occurs (old s : str) : bool :=
  match s with
  | [] => startswith old []
  | _ :: t => startswith old s || occurs old t
  end.

End PyStr.

(** ** Tables *)

Module Pandas.
Import PyStr.

(** One cell of a column.  [NA] stands for every missing value (None,
    NaN, NaT); [Num] carries the bit pattern of a float or an integer,
    which the scripts never compute with; [Timestamp] is a parsed
    datetime in nanoseconds. *)
Inductive cell : Type :=
| NA
| Num (bits : Z)
| Str (s : str)
| Timestamp (ns : Z).

Inductive dtype : Type := Datetime64 | Object.

Record series : Type := { dtype_of : dtype; values : list cell }.

(** A frame with arbitrary columns, as it comes out of a file or of the
    data provider: column labels with their values. *)
Definition frame := list (str * list cell).

(** A frame read from disk still has its index. *)
Record dataframe : Type :=
  { index_name : option str; index_values : list cell; data : frame }.

(** A row of the two-column table: its [date] and its [Close]. *)
Definition row := (cell * cell)%type.

Definition date (r : row) : cell := fst r.
Definition Close (r : row) : cell := snd r.

(** The two-column table the script works on. *)
Record table : Type := { date_dtype : dtype; rows : list row }.

Definition str_eqb (a b : str) : bool :=
  if list_eq_dec ascii_dec a b then true else false.

Definition cell_eqb (a b : cell) : bool :=
  match a, b with
  | NA, NA => true
  | Num x, Num y => Z.eqb x y
  | Str s, Str t => str_eqb s t
  | Timestamp x, Timestamp y => Z.eqb x y
  | _, _ => false
  end.

Definition isna (c : cell) : bool :=
  match c with NA => true | _ => false end.

Definition columns (df : frame) : list str := map fst df.

(** [name in df.columns] *)
Definition has_col (name : str) (df : frame) : bool :=
  existsb (str_eqb name) (columns df).

(** [df[name]] *)
Fixpoint get_col (name : str) (df : frame) : list cell :=
  match df with
  | [] => []
  | (n, v) :: rest => if str_eqb name n then v else get_col name rest
  end.

(** [df[name] = v]: overwrite in place, or append a new last column. *)
Fixpoint set_col (name : str) (v : list cell) (df : frame) : frame :=
  match df with
  | [] => [(name, v)]
  | (n, w) :: rest =>
      if str_eqb name n then (n, v) :: rest else (n, w) :: set_col name v rest
  end.

(** [df.rename(columns={old: new})] *)
Definition rename_col (old new : str) (df : frame) : frame :=
  map (fun c => if str_eqb old (fst c) then (new, snd c) else c) df.

(** [len(df)] *)
Definition frame_len (df : frame) : nat :=
  match df with
  | [] => 0
  | (_, v) :: _ => List.length v
  end.

(** [df.dropna(subset=["date", "Close"])] *)
Definition dropna (l : list row) : list row :=
  filter (fun r => negb (isna (date r)) && negb (isna (Close r))) l.

(** [df.drop_duplicates(subset=["date"], keep="last")]: a row stays
    unless a later row has the same date; order is kept. *)
Fixpoint drop_duplicates_last (l : list row) : list row :=
  match l with
  | [] => []
  | r :: t =>
      if existsb (fun r' => cell_eqb (date r) (date r')) t
      then drop_duplicates_last t
      else r :: drop_duplicates_last t
  end.

Definition last_rows {A : Type} (n : nat) (l : list A) : list A :=
  skipn (List.length l - n) l.

(** [df.tail(n)], that is [df.iloc[-n:]], and no row for [n = 0]; a
    negative [n] drops the first [-n] rows. *)
Definition tail {A : Type} (n : Z) (l : list A) : list A :=
  if (n =? 0)%Z then []
  else if (0 <? n)%Z then last_rows (Z.to_nat n) l
  else skipn (Z.to_nat (- n)) l.

(** [pd.concat([a, b], ignore_index=True)] on two-column tables. *)
Definition concat (a b : table) : table :=
  {| date_dtype := match date_dtype a, date_dtype b with
                   | Datetime64, Datetime64 => Datetime64
                   | _, _ => Object
                   end;
     rows := rows a ++ rows b |}.

(** [pd.api.types.is_datetime64_any_dtype(s)] *)
Definition is_datetime64_any_dtype (s : series) : bool :=
  match dtype_of s with Datetime64 => true | Object => false end.

(** [t["date"]] and [t["date"] = s] *)
Definition date_series (t : table) : series :=
  {| dtype_of := date_dtype t; values := map date (rows t) |}.

Definition set_date_series (t : table) (s : series) : table :=
  {| date_dtype := dtype_of s;
     rows := combine (values s) (map Close (rows t)) |}.

(** [df.reset_index()]: the index becomes the first column, under its
    own name, or under "index" ("level_0" when "index" is taken); a label
    that exists already cannot be inserted. *)
Definition reset_index_label (df : dataframe) : str :=
  match index_name df with
  | Some n => n
  | None => if has_col (lit "index") (data df) then lit "level_0"
            else lit "index"
  end.

(** What the scripts take from pandas and numpy as given. *)
Record Lib : Type :=
  { (** [pd.to_datetime(x, errors="coerce")] on one cell; [None] is NaT *)
    to_datetime_scalar : cell -> option Z;
    (** [pd.to_numeric(x, errors="coerce")] on one cell; [None] is NaN *)
    to_numeric_scalar : cell -> option Z;
    (** [df.sort_values("date")] with the default [kind] *)
    sort_values : list row -> list row }.

Section WithLib.
Variable L : Lib.

Definition to_datetime_cell (c : cell) : cell :=
  match to_datetime_scalar L c with
  | Some t => Timestamp t
  | None => NA
  end.

Definition to_numeric_cell (c : cell) : cell :=
  match to_numeric_scalar L c with
  | Some x => Num x
  | None => NA
  end.

(** [pd.to_datetime(s, errors="coerce")] on a column. *)
Definition to_datetime (s : series) : series :=
  {| dtype_of := Datetime64; values := map to_datetime_cell (values s) |}.

End WithLib.

(** The date of a row as a number, when it is a timestamp. *)
Definition ts (r : row) : option Z :=
  match date r with Timestamp t => Some t | _ => None end.

Definition has_ts (r : row) : Prop := exists t, date r = Timestamp t.

(** Ascending by date, for rows whose dates are timestamps. *)
Definition date_le (a b : row) : Prop :=
  match ts a, ts b with
  | Some x, Some y => (x <= y)%Z
  | _, _ => True
  end.

(** What [sort_values] promises whatever its [kind]: the same rows,
    ascending by date. *)
Definition sort_values_spec (L : Lib) : Prop :=
  forall l, Permutation (sort_values L l) l /\
            (Forall has_ts l -> StronglySorted date_le (sort_values L l)).

(** A stable sort moreover keeps rows of equal date in their order. *)
Definition sort_values_stable (L : Lib) : Prop :=
  forall l d,
    filter (fun r => cell_eqb d (date r)) (sort_values L l)
    = filter (fun r => cell_eqb d (date r)) l.

End Pandas.

(** ** Effects *)

Module Effects.
Import PyStr Pandas.

(** The exceptions the scripts raise themselves, and those that come out
    of a library call. *)
Inductive exn : Type :=
| FileNotFoundError (path : str)
| ValueError_no_date (cols : list str)
| ValueError_no_close (cols : list str)
| ValueError_akshare_columns (cols : list str)
| ValueError_cannot_insert (label : str)
| RuntimeError_akshare_unavailable
| ImportError (what : str)
| LibraryError (what : str).

(** What is printed, one constructor per [print] of the two scripts. *)
Inductive message : Type :=
| MsgReading (path : str)
| MsgErrorReadingParquet (e : exn)
| MsgWarnNoNumericCode (symbol : str)
| MsgFetching (ak_symbol : str)
| MsgAkshareRows (n : nat)
| MsgWarnNoRows
| MsgWarnFetchFailed (e : exn)
| MsgSaving (n : nat) (path : str)
| MsgDone
| MsgTable (t : list row)
| MsgFound (n : nat)
| MsgNoParquet
| MsgReadingFirst (file : str)
| MsgColumns (cols : list str)
| MsgFrameTail (index : list cell) (df : frame)
| MsgIndexName (name : option str)
| MsgImportError (e : exn)
| MsgError (e : exn).

Inductive event : Type :=
| Print (m : message)
| MakeDirs (path : str)
| ListDir (path : str)
| ReadParquet (path : str)
| AkshareRequest (symbol today : str)
| ToCsv (path : str) (t : list row).

(** What the data provider's call can come back with. *)
Inductive ak_result : Type :=
| AkRaises (e : exn)
| AkNone
| AkFrame (df : frame)
| AkOther (coerced : option frame).

(** The world the scripts run in. *)
Record World : Type :=
  { path_exists : str -> bool;
    listdir : str -> exn + list str;
    read_parquet : str -> exn + dataframe;
    (** [None] when [import akshare] fails *)
    stock_zh_a_hist_min_em : option (str -> str -> ak_result);
    today : str }.

(** [os.path] and the location of the script. *)
Record Os : Type :=
  { path_join : str -> str -> str;
    basename : str -> str;
    splitext_root : str -> str;
    project_root : str }.

(** A computation prints and touches files as it goes, and ends with a
    value or with an exception. *)
Definition M (A : Type) : Type := (list event * (exn + A))%type.

Definition ret {A : Type} (a : A) : M A := ([], inr a).

Definition raise {A : Type} (e : exn) : M A := ([], inl e).

Definition emit (ev : event) : M unit := ([ev], inr tt).

Definition bind {A B : Type} (m : M A) (k : A -> M B) : M B :=
  match m with
  | (tr, inl e) => (tr, inl e)
  | (tr, inr a) => let (tr', r) := k a in (tr ++ tr', r)
  end.

(** [try: m  except Exception as e: handler e] *)
Definition try_except {A : Type} (m : M A) (handler : exn -> M A) : M A :=
  match m with
  | (tr, inl e) => let (tr', r) := handler e in (tr ++ tr', r)
  | (tr, inr a) => (tr, inr a)
  end.

Definition of_result {A : Type} (r : exn + A) : M A := ([], r).

Definition trace {A : Type} (m : M A) : list event := fst m.

Definition outcome {A : Type} (m : M A) : exn + A := snd m.

End Effects.

Declare Scope script_scope.
Delimit Scope script_scope with script.
Notation "x <- m ;; k" := (Effects.bind m (fun x => k))
  (at level 61, m at next level, right associativity) : script_scope.
Notation "m ;; k" := (Effects.bind m (fun _ => k))
  (at level 61, right associativity) : script_scope.

(** ** prepare_inference_data.py *)

Module Prepare.
Import PyStr Pandas Effects.
Local Open Scope script_scope.

(** The parsed command line. *)
Record Args : Type :=
  { symbol : str; data_dir : str; tail_arg : Z; use_akshare : bool }.

Definition col_trade_time : str := lit "trade_time".
Definition col_date : str := lit "date".
Definition col_Close : str := lit "Close".
Definition col_close : str := lit "close".
(** The provider's column labels, UTF-8 encoded. *)
Definition col_ak_time : str := lit "时间".
Definition col_ak_date : str := lit "日期".
Definition col_ak_close : str := lit "收盘".

Definition dot : ascii := "."%char.

(** [pd.DataFrame(columns=["date", "Close"])] *)
Definition empty_table : table := {| date_dtype := Object; rows := [] |}.

Section Script.
Variable L : Lib.
Variable O : Os.
Variable W : World.

Definition _ensure_datetime (s : series) : series :=
  if is_datetime64_any_dtype s then s else to_datetime L s.

(** [pd.read_parquet(parquet_path).reset_index()] *)
Definition read_and_reset_index (parquet_path : str) : M frame :=
  emit (ReadParquet parquet_path) ;;
  raw <- of_result (read_parquet W parquet_path) ;;
  let label := reset_index_label raw in
  if has_col label (data raw) then raise (ValueError_cannot_insert label)
  else ret ((label, index_values raw) :: data raw).

Definition _load_parquet_series (parquet_path : str) : M table :=
  if negb (path_exists W parquet_path)
  then raise (FileNotFoundError parquet_path)
  else
    df <- read_and_reset_index parquet_path ;;
    df <- (if has_col col_trade_time df then
             ret (set_col col_date
                    (map (to_datetime_cell L) (get_col col_trade_time df)) df)
           else if has_col col_date df then
             ret (set_col col_date
                    (map (to_datetime_cell L) (get_col col_date df)) df)
           else raise (ValueError_no_date (columns df))) ;;
    df <- (if negb (has_col col_Close df) then
             if has_col col_close df
             then ret (rename_col col_close col_Close df)
             else raise (ValueError_no_close (columns df))
           else ret df) ;;
    let out := combine (get_col col_date df) (get_col col_Close df) in
    let out := sort_values L (dropna out) in
    let out := drop_duplicates_last out in
    ret {| date_dtype := Datetime64; rows := out |}.

(** Lines 62 to 78: from the provider's frame to the two-column table. *)
Definition today_table (df : frame) : M table :=
  if frame_len df =? 0 then ret empty_table
  else
    let col_time :=
      if has_col col_ak_time df then Some col_ak_time
      else if has_col col_ak_date df then Some col_ak_date else None in
    let col_close' :=
      if has_col col_ak_close df then Some col_ak_close
      else if has_col col_close df then Some col_close else None in
    match col_time, col_close' with
    | Some ct, Some cc =>
        let out := combine (map (to_datetime_cell L) (get_col ct df))
                           (map (to_numeric_cell L) (get_col cc df)) in
        let out := sort_values L (dropna out) in
        let out := drop_duplicates_last out in
        ret {| date_dtype := Datetime64; rows := out |}
    | _, _ => raise (ValueError_akshare_columns (columns df))
    end.

Definition _fetch_today_1m_from_akshare (symbol_6 : str) : M table :=
  match stock_zh_a_hist_min_em W with
  | None => raise RuntimeError_akshare_unavailable
  | Some ak_call =>
      emit (AkshareRequest symbol_6 (today W)) ;;
      match ak_call symbol_6 (today W) with
      | AkRaises e => raise e
      | AkNone => ret empty_table
      | AkOther None => ret empty_table
      | AkOther (Some df) => today_table df
      | AkFrame df => today_table df
      end
  end.

Definition _symbol_to_akshare_6 (symbol : str) : str :=
  let s := upper (strip symbol) in
  let s := if contains_char dot s then nth 0 (split dot s) [] else s in
  sub_nondigits s.

(** Lines 110 to 113. *)
Definition parquet_name (args : Args) : str :=
  let symbol := strip (symbol args) in
  let parquet_name :=
    if negb (endswith symbol (lit ".parquet"))
    then symbol ++ lit ".parquet" else symbol in
  replace (lit ".PARQUET") (lit ".parquet") parquet_name.

Definition parquet_path (args : Args) : str :=
  path_join O (data_dir args) (parquet_name args).

(** Lines 115 to 120. *)
Definition input_dir : str := path_join O (project_root O) (lit "input").

Definition output_csv_path (args : Args) : str :=
  let base_name := splitext_root O (basename O (parquet_name args)) in
  path_join O input_dir (base_name ++ lit ".csv").

(** Lines 131 to 146: the optional merge of today's rows. *)
Definition merge_today (args : Args) (local_df : table) : M table :=
  if use_akshare args then
    let ak_symbol := _symbol_to_akshare_6 (strip (symbol args)) in
    match ak_symbol with
    | [] =>
        emit (Print (MsgWarnNoNumericCode (strip (symbol args)))) ;;
        ret local_df
    | _ :: _ =>
        emit (Print (MsgFetching ak_symbol)) ;;
        try_except
          (today_df <- _fetch_today_1m_from_akshare ak_symbol ;;
           emit (Print (MsgAkshareRows (List.length (rows today_df)))) ;;
           if 0 <? List.length (rows today_df)
           then ret (concat local_df today_df)
           else emit (Print MsgWarnNoRows) ;; ret local_df)
          (fun e => emit (Print (MsgWarnFetchFailed e)) ;; ret local_df)
    end
  else ret local_df.

(** Lines 148 to 150. *)
Definition normalize (merged : table) : table :=
  let merged := set_date_series merged (_ensure_datetime (date_series merged)) in
  let sorted := sort_values L (dropna (rows merged)) in
  {| date_dtype := date_dtype merged; rows := drop_duplicates_last sorted |}.

(** Lines 152 and 153. *)
Definition truncate (n : Z) (merged : table) : table :=
  if negb (n =? 0)%Z && (0 <? n)%Z
  then {| date_dtype := date_dtype merged; rows := tail n (rows merged) |}
  else merged.

Definition main (args : Args) : M Z :=
  emit (MakeDirs input_dir) ;;
  emit (Print (MsgReading (parquet_path args))) ;;
  loaded <- try_except
              (local_df <- _load_parquet_series (parquet_path args) ;;
               ret (Some local_df))
              (fun e => emit (Print (MsgErrorReadingParquet e)) ;; ret None) ;;
  match loaded with
  | None => ret 1%Z
  | Some local_df =>
      merged <- merge_today args local_df ;;
      let merged := normalize merged in
      let merged := truncate (tail_arg args) merged in
      emit (Print (MsgSaving (List.length (rows merged)) (output_csv_path args))) ;;
      emit (ToCsv (output_csv_path args) (rows merged)) ;;
      emit (Print MsgDone) ;;
      emit (Print (MsgTable (tail 5 (rows merged)))) ;;
      ret 0%Z
  end.

(** [raise SystemExit(main())]: the status of the process; an exception
    that leaves [main] ends it with status 1. *)
Definition exit_code (args : Args) : Z :=
  match outcome (main args) with
  | inr status => status
  | inl _ => 1%Z
  end.

(** The tables written, in order. *)
Definition csv_written (args : Args) : list (str * list row) :=
  flat_map (fun ev => match ev with ToCsv p t => [(p, t)] | _ => [] end)
           (trace (main args)).

(** The files opened for reading, in order. *)
Definition files_read (args : Args) : list str :=
  flat_map (fun ev => match ev with ReadParquet p => [p] | _ => [] end)
           (trace (main args)).

Definition printed (args : Args) : list message :=
  flat_map (fun ev => match ev with Print m => [m] | _ => [] end)
           (trace (main args)).

End Script.
End Prepare.

(** ** explore_data.py *)

Module Explore.
Import PyStr Pandas Effects.
Local Open Scope script_scope.

Definition data_dir : str :=
  lit "D:\qlib_source_data_supplement_1min\stock_1min".

Section Script.
Variable O : Os.
Variable W : World.

(** Lines 20 to 28: read the file and print what it holds. *)
Definition show_file (file_path : str) : M unit :=
  try_except
    (emit (ReadParquet file_path) ;;
     df <- of_result (read_parquet W file_path) ;;
     emit (Print (MsgColumns (columns (data df)))) ;;
     emit (Print (MsgFrameTail (tail 5 (index_values df))
                    (map (fun c => (fst c, tail 5 (snd c))) (data df)))) ;;
     emit (Print (MsgIndexName (index_name df))))
    (fun e =>
       match e with
       | ImportError _ => emit (Print (MsgImportError e))
       | _ => emit (Print (MsgErrorReadingParquet e))
       end).

(** The module body. *)
Definition script : M unit :=
  try_except
    (emit (ListDir data_dir) ;;
     files <- of_result (listdir W data_dir) ;;
     emit (Print (MsgFound (List.length files))) ;;
     match files with
     | [] => ret tt
     | _ :: _ =>
         let parquet_files :=
           filter (fun f => endswith f (lit ".parquet")) files in
         match parquet_files with
         | [] => emit (Print MsgNoParquet)
         | first_file :: _ =>
             emit (Print (MsgReadingFirst first_file)) ;;
             show_file (path_join O data_dir first_file)
         end
     end)
    (fun e => emit (Print (MsgError e))).

Definition files_read : list str :=
  flat_map (fun ev => match ev with ReadParquet p => [p] | _ => [] end)
           (trace script).

Definition printed : list message :=
  flat_map (fun ev => match ev with Print m => [m] | _ => [] end)
           (trace script).


End Script.
End Explore.

(** ** Concrete interfaces, to run the scripts on examples *)

Module Examples.
Import PyStr Pandas Effects.

(** The order of the keys, rows without a date last. *)
Definition key_leb (a b : option Z) : bool :=
  match a, b with
  | Some x, Some y => (x <=? y)%Z
  | Some _, None => true
  | None, Some _ => false
  | None, None => true
  end.

(** Insertion in front of the first row that is not earlier: rows of
    equal date stay in their order. *)
Fixpoint insert_stable (r : row) (l : list row) : list row :=
  match l with
  | [] => [r]
  | x :: t =>
      if key_leb (ts r) (ts x) then r :: l else x :: insert_stable r t
  end.

(** A stable sort by date, as [kind="stable"] would give. *)
Definition sort_stable (l : list row) : list row :=
  fold_right insert_stable [] l.

(** Cells that are already timestamps or numbers convert to themselves,
    everything else is coerced to missing. *)
Definition scalar_of_cell (c : cell) : option Z :=
  match c with
  | Timestamp t => Some t
  | Num x => Some x
  | _ => None
  end.

(** A library whose sort is stable. *)
Definition lib_stable : Lib :=
  {| to_datetime_scalar := scalar_of_cell;
     to_numeric_scalar := scalar_of_cell;
     sort_values := sort_stable |}.

Definition slash : ascii := "/"%char.

(** [posixpath.join] on two components. *)
Definition posix_join (a b : str) : str :=
  match b with
  | c :: _ => if Ascii.eqb c slash then b
              else match a with
                   | [] => b
                   | _ => if endswith a [slash] then a ++ b
                          else a ++ slash :: b
                   end
  | [] => match a with
          | [] => []
          | _ => if endswith a [slash] then a else a ++ [slash]
          end
  end.

(** [posixpath.basename] *)
Definition posix_basename (p : str) : str :=
  last (split slash p) [].

(** The number of dots [p] starts with. *)
Fixpoint leading_dots (p : str) : nat :=
  match p with
  | c :: t => if Ascii.eqb c Prepare.dot then S (leading_dots t) else 0
  | [] => 0
  end.

(** The characters before the last [sep], when there is one. *)
Fixpoint before_last (sep : ascii) (s : str) : option str :=
  match s with
  | [] => None
  | c :: t =>
      match before_last sep t with
      | Some r => Some (c :: r)
      | None => if Ascii.eqb c sep then Some [] else None
      end
  end.

(** [os.path.splitext(p)[0]] for a name without directory part: cut at
    the last dot, leading dots apart. *)
Definition posix_splitext_root (p : str) : str :=
  let k := leading_dots p in
  match before_last Prepare.dot (skipn k p) with
  | Some r => firstn k p ++ r
  | None => p
  end.

(** A POSIX system with the script installed under /srv/fincast. *)
Definition posix : Os :=
  {| path_join := posix_join;
     basename := posix_basename;
     splitext_root := posix_splitext_root;
     project_root := lit "/srv/fincast" |}.

End Examples.

(** ** numpy's argsort with [kind="quicksort"]

    [sort_values] on one column takes its order from numpy's argsort with
    the default kind.  The definitions below follow that routine: ranges
    of more than 17 entries are partitioned around the median of their
    first, middle and last keys, shorter ranges are sorted by insertion.
    The routine's fallback to heapsort beyond the depth limit is left
    out: it is not reached on the short inputs used here. *)

Module NumpyQuicksort.
Import Pandas.

Definition SMALL_QUICKSORT : nat := 16.

Fixpoint upd {A : Type} (l : list A) (i : nat) (x : A) : list A :=
  match l, i with
  | [], _ => []
  | _ :: t, O => x :: t
  | y :: t, S j => y :: upd t j x
  end.

Section ArgSort.
Variable v : list Z.

(** [v[tosort[p]]] *)
Definition key_at (tosort : list nat) (p : nat) : Z :=
  nth (nth p tosort 0) v 0%Z.

Definition swap (tosort : list nat) (i j : nat) : list nat :=
  upd (upd tosort i (nth j tosort 0)) j (nth i tosort 0).

(** [do ++pi; while (v[*pi] < vp)] *)
Fixpoint scan_up (fuel : nat) (tosort : list nat) (vp : Z) (pi : nat) : nat :=
  match fuel with
  | O => pi
  | S f => if (key_at tosort (S pi) <? vp)%Z
           then scan_up f tosort vp (S pi) else S pi
  end.

(** [do --pj; while (vp < v[*pj])] *)
Fixpoint scan_down (fuel : nat) (tosort : list nat) (vp : Z) (pj : nat) : nat :=
  match fuel with
  | O => pj
  | S f => if (vp <? key_at tosort (pj - 1))%Z
           then scan_down f tosort vp (pj - 1) else pj - 1
  end.

Fixpoint partition_loop (fuel : nat) (tosort : list nat) (vp : Z)
    (pi pj : nat) : list nat * nat :=
  match fuel with
  | O => (tosort, pi)
  | S f =>
      let pi := scan_up (List.length tosort) tosort vp pi in
      let pj := scan_down (List.length tosort) tosort vp pj in
      if pj <=? pi then (tosort, pi)
      else partition_loop f (swap tosort pi pj) vp pi pj
  end.

Definition median_of_three (tosort : list nat) (pl pm pr : nat) : list nat :=
  let t := if (key_at tosort pm <? key_at tosort pl)%Z
           then swap tosort pm pl else tosort in
  let t := if (key_at t pr <? key_at t pm)%Z then swap t pr pm else t in
  if (key_at t pm <? key_at t pl)%Z then swap t pm pl else t.

(** [while (pj > pl && vp < v[*pk]) *pj-- = *pk--] *)
Fixpoint shift (fuel : nat) (tosort : list nat) (pl : nat) (vp : Z)
    (pj : nat) : list nat * nat :=
  match fuel with
  | O => (tosort, pj)
  | S f =>
      if (pl <? pj) && (vp <? key_at tosort (pj - 1))%Z
      then shift f (upd tosort pj (nth (pj - 1) tosort 0)) pl vp (pj - 1)
      else (tosort, pj)
  end.

Fixpoint insertion_sort (count : nat) (tosort : list nat) (pl pi : nat)
    : list nat :=
  match count with
  | O => tosort
  | S c =>
      let vi := nth pi tosort 0 in
      let (t, pj) := shift pi tosort pl (nth vi v 0%Z) pi in
      insertion_sort c (upd t pj vi) pl (S pi)
  end.

Fixpoint quicksort_range (fuel : nat) (tosort : list nat) (pl pr : nat)
    : list nat :=
  match fuel with
  | O => tosort
  | S f =>
      if SMALL_QUICKSORT <? pr - pl then
        let pm := pl + (pr - pl) / 2 in
        let t := median_of_three tosort pl pm pr in
        let vp := key_at t pm in
        let t := swap t pm (pr - 1) in
        let (t, pi) := partition_loop (List.length t) t vp pl (pr - 1) in
        let t := swap t pi (pr - 1) in
        let t := quicksort_range f t pl (pi - 1) in
        quicksort_range f t (pi + 1) pr
      else insertion_sort (pr - pl) tosort pl (S pl)
  end.

Definition argsort : list nat :=
  let n := List.length v in
  quicksort_range n (seq 0 n) 0 (n - 1).

End ArgSort.

Definition has_ts_b (r : row) : bool :=
  match ts r with Some _ => true | None => false end.

Definition key (r : row) : Z :=
  match ts r with Some t => t | None => 0%Z end.

(** Rows are taken in the order of the argsort of their dates; rows
    without a date come last. *)
Definition sort_values (l : list row) : list row :=
  let dated := filter has_ts_b l in
  map (fun i => nth i dated (NA, NA)) (argsort (map key dated))
  ++ filter (fun r => negb (has_ts_b r)) l.

Definition lib : Lib :=
  {| to_datetime_scalar := Examples.scalar_of_cell;
     to_numeric_scalar := Examples.scalar_of_cell;
     Pandas.sort_values := sort_values |}.

End NumpyQuicksort.

(** ** Worlds to run the scripts in *)

Module Scenarios.
Import PyStr Pandas Effects Examples.

(** A stored file indexed by [trade_time], with a repeated minute and a
    missing one. *)
Definition stored : dataframe :=
  {| index_name := Some (lit "trade_time");
     index_values := [Timestamp 3; Timestamp 1; Timestamp 3; NA];
     data := [(lit "close", [Num 30; Num 10; Num 31; Num 5])] |}.

Definition provider_frame : frame :=
  [(Prepare.col_ak_time, [Timestamp 3; Timestamp 4]);
   (Prepare.col_ak_close, [Num 99; Num 40])].

Definition world : World :=
  {| path_exists := fun _ => true;
     listdir := fun _ => inr [lit "notes.txt"; lit "600869.SH.parquet"];
     read_parquet := fun _ => inr stored;
     stock_zh_a_hist_min_em := Some (fun _ _ => AkFrame provider_frame);
     today := lit "20260105" |}.

(** The same, without the source file. *)
Definition world_missing : World :=
  {| path_exists := fun _ => false;
     listdir := fun _ => inr [lit "notes.txt"];
     read_parquet := fun _ => inl (LibraryError (lit "no such file"));
     stock_zh_a_hist_min_em := stock_zh_a_hist_min_em world;
     today := today world |}.

(** The same, with a provider that cannot be reached. *)
Definition world_offline : World :=
  {| path_exists := path_exists world;
     listdir := listdir world;
     read_parquet := read_parquet world;
     stock_zh_a_hist_min_em :=
       Some (fun _ _ => AkRaises (LibraryError (lit "connection timed out")));
     today := today world |}.

Definition args : Prepare.Args :=
  {| Prepare.symbol := lit "600869.SH";
     Prepare.data_dir := lit "/data";
     Prepare.tail_arg := 2;
     Prepare.use_akshare := true |}.


Definition three_rows : table :=
  {| date_dtype := Datetime64;
     rows := [(Timestamp 1, Num 10); (Timestamp 2, Num 20);
              (Timestamp 3, Num 30)] |}.


End Scenarios.

(** A stored file with the minutes 1 to 9, and a provider that returns
    the minutes 9 to 17 of today: minute 9 is on both sides, with another
    price. *)
Module Overlap.
Import PyStr Pandas Effects Prepare Examples.

Definition stored : dataframe :=
  {| index_name := Some (lit "trade_time");
     index_values := map Timestamp [1; 2; 3; 4; 5; 6; 7; 8; 9]%Z;
     data := [(lit "close",
               map Num [101; 102; 103; 104; 105; 106; 107; 108; 109]%Z)] |}.

Definition provider_frame : frame :=
  [(col_ak_time, map Timestamp [9; 10; 11; 12; 13; 14; 15; 16; 17]%Z);
   (col_ak_close,
    map Num [209; 210; 211; 212; 213; 214; 215; 216; 217]%Z)].

Definition world : World :=
  {| path_exists := fun _ => true;
     listdir := fun _ => inr [lit "600869.SH.parquet"];
     read_parquet := fun _ => inr stored;
     stock_zh_a_hist_min_em := Some (fun _ _ => AkFrame provider_frame);
     today := lit "20260105" |}.

Definition args : Args :=
  {| symbol := lit "600869.SH";
     data_dir := lit "/data";
     tail_arg := 2000;
     use_akshare := true |}.

(** The table written with numpy's default argsort. *)
Definition written : list (str * list row) :=
  csv_written NumpyQuicksort.lib posix world args.

End Overlap.

(** ** Notions used in the statements *)

Module Notions.
Import PyStr Pandas Effects Prepare.

(** The cleaning chain that the script applies three times:
    dropna, sort_values, drop_duplicates. *)
Definition tidy (L : Lib) (l : list row) : list row :=
  drop_duplicates_last (sort_values L (dropna l)).

(** The table that goes to disk once the merge step has ended. *)
Definition final_table (L : Lib) (args : Args) (merged : table) : table :=
  truncate (tail_arg args) (normalize L merged).

(** A cell of a datetime column: a timestamp, or missing. *)
Definition datetime_cell (c : cell) : Prop :=
  c = NA \/ exists t, c = Timestamp t.

(** A row fit for the output: a parsed date and a price. *)
Definition clean (r : row) : Prop := has_ts r /\ Close r <> NA.

(** A table whose dtype tells the truth about its date column. *)
Definition well_typed (t : table) : Prop :=
  date_dtype t = Datetime64 ->
  Forall (fun r => datetime_cell (date r)) (rows t).

(** The dates of [t] are timestamps in ascending order. *)
Definition ascending_dates (t : list row) : Prop :=
  exists keys, map date t = map Timestamp keys /\ StronglySorted Z.le keys.

(** The rows of a given date. *)
Definition same_date (d : cell) (r : row) : bool := cell_eqb d (date r).

(** An event of the merge step is a print or the provider's call. *)
Definition merge_event (ev : event) : Prop :=
  match ev with
  | Print _ | AkshareRequest _ _ => True
  | _ => False
  end.

(** No table is written along [tr]. *)
Definition no_csv (tr : list event) : Prop :=
  flat_map (fun ev => match ev with ToCsv p t => [(p, t)] | _ => [] end) tr
  = [].

(** The provider's calls made during a run. *)
Definition provider_calls (L : Lib) (O : Os) (W : World) (args : Args)
    : list (str * str) :=
  flat_map (fun ev => match ev with
                      | AkshareRequest s d => [(s, d)]
                      | _ => []
                      end)
           (trace (main L O W args)).

End Notions.

(** ** Further notions and worlds *)

Module Cases.
Import PyStr Pandas Effects Prepare Examples.

(** The frame [.reset_index()] makes of a frame read from disk. *)
Definition reset_frame (raw : dataframe) : frame :=
  (reset_index_label raw, index_values raw) :: data raw.

(** The dates of [t] are timestamps in strictly ascending order. *)
Definition strictly_ascending_dates (t : list row) : Prop :=
  exists keys, map date t = map Timestamp keys /\ StronglySorted Z.lt keys.


(** A stored file without any time column. *)
Definition stored_without_time : dataframe :=
  {| index_name := None;
     index_values := [Num 0; Num 1];
     data := [(lit "close", [Num 30; Num 10])] |}.

Definition world_with (raw : dataframe) : World :=
  {| path_exists := fun _ => true;
     listdir := fun _ => inr [lit "600869.SH.parquet"];
     read_parquet := fun _ => inr raw;
     stock_zh_a_hist_min_em := stock_zh_a_hist_min_em Scenarios.world;
     today := today Scenarios.world |}.

(** A provider that answers with what [answer] says. *)
Definition world_answering (answer : ak_result) : World :=
  {| path_exists := fun _ => true;
     listdir := fun _ => inr [lit "600869.SH.parquet"];
     read_parquet := fun _ => inr Scenarios.stored;
     stock_zh_a_hist_min_em := Some (fun _ _ => answer);
     today := lit "20260105" |}.

(** The same run as [Scenarios.args], without [--use-akshare]. *)
Definition args_local_only : Args :=
  {| symbol := lit "600869.SH";
     data_dir := lit "/data";
     tail_arg := 1;
     use_akshare := false |}.

(** A directory that cannot be listed, an empty one, and one whose only
    parquet file cannot be read. *)
Definition world_unlistable : World :=
  {| path_exists := fun _ => false;
     listdir := fun _ => inl (LibraryError (lit "no such directory"));
     read_parquet := fun _ => inl (LibraryError (lit "no such file"));
     stock_zh_a_hist_min_em := None;
     today := lit "20260105" |}.

Definition world_empty_dir : World :=
  {| path_exists := fun _ => false;
     listdir := fun _ => inr [];
     read_parquet := fun _ => inl (LibraryError (lit "no such file"));
     stock_zh_a_hist_min_em := None;
     today := lit "20260105" |}.

Definition world_no_engine : World :=
  {| path_exists := fun _ => true;
     listdir := fun _ => inr [lit "a.parquet"; lit "b.parquet"];
     read_parquet := fun _ => inl (ImportError (lit "pyarrow"));
     stock_zh_a_hist_min_em := None;
     today := lit "20260105" |}.

End Cases.

(** * Properties *)

(** ** Strings *)

Module PyStrFacts.
Import PyStr.




(** A match of [old] at the head of [s ++ suf] lies inside [s], or [s] is
    a proper beginning of [old] that [suf] continues. *)
Lemma startswith_app (old s suf : str) :
  startswith old (s ++ suf) = true ->
  startswith old s = true \/
  exists k, k < List.length old /\ startswith (skipn k old) suf = true.
Proof.
  revert s. induction old as [|a p IH]; intros s H.
  - now left.
  - destruct s as [|b s'].
    + right. exists 0. split; [simpl; lia | exact H].
    + simpl in H. apply andb_true_iff in H. destruct H as [Hab H].
      destruct (IH s' H) as [Hs | (k & Hk & Hsuf)].
      * left. simpl. now rewrite Hab.
      * right. exists (S k). split; [simpl; lia | exact Hsuf].
Qed.

Lemma occurs_head (old s : str) :
  occurs old s = false -> startswith old s = false.
Proof.
  destruct s; simpl; [tauto|].
  intros H. now apply orb_false_iff in H.
Qed.

(** Where [old] does not occur there is nothing to replace. *)
Lemma replace_absent (old new s : str) :
  occurs old s = false -> replace old new s = s.
Proof.
  unfold replace. induction s as [|c t IH]; [reflexivity|].
  intros H. pose proof (occurs_head _ _ H) as Hh.
  cbn [replace_from]. rewrite Hh.
  simpl in H. apply orb_false_iff in H. destruct H as [_ H].
  now rewrite IH.
Qed.


End PyStrFacts.

(** ** Tables *)

Module PandasFacts.
Import PyStr Pandas.

Lemma str_eqb_eq (a b : str) : str_eqb a b = true <-> a = b.
Proof.
  unfold str_eqb. destruct (list_eq_dec ascii_dec a b); split; congruence.
Qed.

Lemma cell_eqb_eq (a b : cell) : cell_eqb a b = true <-> a = b.
Proof.
  destruct a, b; simpl; split; intros H; try congruence; try discriminate.
  - apply Z.eqb_eq in H. congruence.
  - apply Z.eqb_eq. congruence.
  - apply str_eqb_eq in H. congruence.
  - apply str_eqb_eq. congruence.
  - apply Z.eqb_eq in H. congruence.
  - apply Z.eqb_eq. congruence.
Qed.

Lemma cell_eqb_refl (a : cell) : cell_eqb a a = true.
Proof. now apply cell_eqb_eq. Qed.

Lemma cell_eqb_neq (a b : cell) : cell_eqb a b = false <-> a <> b.
Proof.
  rewrite <- cell_eqb_eq. destruct (cell_eqb a b); split; congruence.
Qed.

(** A row that survives [dropna] has a date and a price. *)
Lemma dropna_In (r : row) (l : list row) :
  In r (dropna l) <-> In r l /\ date r <> NA /\ Close r <> NA.
Proof.
  unfold dropna. rewrite filter_In, andb_true_iff, !negb_true_iff.
  assert (Hna : forall c, isna c = false <-> c <> NA)
    by (intros c; destruct c; simpl; split; congruence).
  now rewrite !Hna.
Qed.

Lemma dropna_clean (l : list row) :
  Forall (fun r => date r <> NA /\ Close r <> NA) l -> dropna l = l.
Proof.
  induction 1 as [|r l [Hd Hc] _ IH]; [reflexivity|].
  unfold dropna in *. simpl. rewrite IH.
  destruct (date r), (Close r); simpl; congruence.
Qed.

Lemma dropna_app (a b : list row) : dropna (a ++ b) = dropna a ++ dropna b.
Proof. apply filter_app. Qed.

(** No later row has the date of [r]. *)
Lemma no_later_row (r : row) (t : list row) :
  existsb (fun r' => cell_eqb (date r) (date r')) t = false
  <-> ~ In (date r) (map date t).
Proof.
  split.
  - intros H Hin. apply in_map_iff in Hin. destruct Hin as (r' & Heq & Hin).
    assert (existsb (fun r' => cell_eqb (date r) (date r')) t = true)
      by (apply existsb_exists; exists r'; split;
          [assumption | now apply cell_eqb_eq]).
    congruence.
  - intros H. destruct (existsb _ t) eqn:E; [|reflexivity].
    apply existsb_exists in E. destruct E as (r' & Hin & Heq).
    apply cell_eqb_eq in Heq. exfalso. apply H. rewrite Heq.
    now apply in_map.
Qed.

Lemma drop_duplicates_last_incl (r : row) (l : list row) :
  In r (drop_duplicates_last l) -> In r l.
Proof.
  induction l as [|x t IH]; simpl; [tauto|].
  destruct (existsb _ t); simpl; intuition.
Qed.

(** At most one row per date. *)
Lemma drop_duplicates_last_NoDup (l : list row) :
  NoDup (map date (drop_duplicates_last l)).
Proof.
  induction l as [|x t IH]; simpl; [constructor|].
  destruct (existsb _ t) eqn:E; [exact IH|].
  simpl. constructor; [|exact IH].
  apply (no_later_row x t) in E. intros Hin. apply E.
  apply in_map_iff in Hin. destruct Hin as (r' & Heq & Hin).
  rewrite <- Heq. apply in_map. now apply drop_duplicates_last_incl.
Qed.

(** The row that is kept for a date is the last one of that date. *)
Lemma drop_duplicates_last_is_last (r : row) (l : list row) :
  In r (drop_duplicates_last l) ->
  exists before after,
    l = before ++ r :: after /\ ~ In (date r) (map date after).
Proof.
  induction l as [|x t IH]; simpl; [tauto|].
  destruct (existsb _ t) eqn:E.
  - intros H. destruct (IH H) as (b & a & -> & Ha).
    now exists (x :: b), a.
  - intros [-> | H].
    + exists [], t. split; [reflexivity|].
      now apply no_later_row.
    + destruct (IH H) as (b & a & -> & Ha). now exists (x :: b), a.
Qed.

Lemma drop_duplicates_last_sorted (R : row -> row -> Prop) (l : list row) :
  StronglySorted R l -> StronglySorted R (drop_duplicates_last l).
Proof.
  induction 1 as [|x t _ IH Hx]; simpl; [constructor|].
  destruct (existsb _ t); [exact IH|].
  constructor; [exact IH|].
  rewrite Forall_forall in *. intros y Hy. apply Hx.
  now apply drop_duplicates_last_incl.
Qed.

Lemma tail_suffix {A : Type} (n : Z) (l : list A) :
  exists dropped, l = dropped ++ tail n l.
Proof.
  unfold tail, last_rows.
  destruct (n =? 0)%Z; [exists l; now rewrite app_nil_r|].
  destruct (0 <? n)%Z; eexists; symmetry; apply firstn_skipn.
Qed.

Lemma suffix_sorted {A : Type} (R : A -> A -> Prop) (a b : list A) :
  StronglySorted R (a ++ b) -> StronglySorted R b.
Proof.
  induction a as [|x a IH]; [trivial|].
  simpl. intros H. apply IH. now inversion H.
Qed.

(** In a sorted list every row of a beginning is below every later row. *)
Lemma sorted_app_le {A : Type} (R : A -> A -> Prop) (a b : list A) :
  StronglySorted R (a ++ b) ->
  forall x y, In x a -> In y b -> R x y.
Proof.
  induction a as [|z a IH]; simpl; [tauto|].
  intros H x y [-> | Hx] Hy.
  - inversion H as [|? ? _ Hall]; subst.
    rewrite Forall_forall in Hall. apply Hall, in_or_app. now right.
  - apply IH; trivial. now inversion H.
Qed.

Lemma last_rows_length {A : Type} (n : nat) (l : list A) :
  List.length (last_rows n l) = Nat.min n (List.length l).
Proof. unfold last_rows. rewrite length_skipn. lia. Qed.

End PandasFacts.

(** ** The run of prepare_inference_data.py *)

Module PrepareFacts.
Import PyStr Pandas Effects Prepare Notions.

(** Case analysis on whatever the goal branches on. *)
Ltac branch :=
  repeat match goal with
         | |- context [match ?x with _ => _ end] =>
             lazymatch x with
             | context [match _ with _ => _ end] => fail
             | _ => destruct x eqn:?; simpl
             end
         end.

Section Run.
Variable L : Lib.
Variable O : Os.
Variable W : World.

(** Loading opens the file it is given when it exists, and nothing
    else. *)
Lemma load_trace (p : str) :
  trace (_load_parquet_series L W p)
  = if path_exists W p then [ReadParquet p] else [].
Proof.
  unfold _load_parquet_series, read_and_reset_index, trace.
  destruct (path_exists W p); simpl; [|reflexivity].
  destruct (read_parquet W p) as [e | raw]; simpl; [reflexivity|].
  branch; reflexivity.
Qed.

Lemma load_missing (p : str) :
  path_exists W p = false ->
  _load_parquet_series L W p = ([], inl (FileNotFoundError p)).
Proof. unfold _load_parquet_series. now intros ->. Qed.

Lemma load_unreadable (p : str) (e : exn) :
  path_exists W p = true -> read_parquet W p = inl e ->
  _load_parquet_series L W p = ([ReadParquet p], inl e).
Proof.
  unfold _load_parquet_series, read_and_reset_index. now intros -> ->.
Qed.

Lemma today_table_trace (df : frame) : trace (today_table L df) = [].
Proof. unfold today_table, trace. branch; reflexivity. Qed.

Lemma fetch_trace (s : str) :
  Forall merge_event (trace (_fetch_today_1m_from_akshare L W s)).
Proof.
  unfold _fetch_today_1m_from_akshare, trace.
  destruct (stock_zh_a_hist_min_em W) as [call|]; simpl; [|constructor].
  destruct (call s (today W)) as [e | | df | [df|]]; simpl;
    try (repeat constructor).
  - pose proof (today_table_trace df) as H. unfold trace in H.
    destruct (today_table L df) as [tr r]. simpl in *. subst.
    repeat constructor.
  - pose proof (today_table_trace df) as H. unfold trace in H.
    destruct (today_table L df) as [tr r]. simpl in *. subst.
    repeat constructor.
Qed.

(** The merge step never raises: it ends with the local table, or with
    the local table followed by today's rows. *)
Lemma merge_today_outcome (args : Args) (local_df : table) :
  Forall merge_event (trace (merge_today L W args local_df)) /\
  (outcome (merge_today L W args local_df) = inr local_df \/
   exists today_df,
     outcome (_fetch_today_1m_from_akshare L W
                (_symbol_to_akshare_6 (strip (symbol args)))) = inr today_df /\
     rows today_df <> [] /\
     outcome (merge_today L W args local_df) = inr (concat local_df today_df)).
Proof.
  unfold merge_today.
  destruct (use_akshare args); [|split; [constructor | now left]].
  destruct (_symbol_to_akshare_6 (strip (symbol args))) as [|c s] eqn:Es.
  - split; [repeat constructor | now left].
  - pose proof (fetch_trace (c :: s)) as Htr.
    destruct (_fetch_today_1m_from_akshare L W (c :: s)) as [tr [e | today_df]].
    + simpl in *. split; [|now left].
      constructor; [exact I|]. apply Forall_app. split; [exact Htr|].
      repeat constructor.
    + simpl in Htr. unfold trace, outcome. simpl.
      destruct (rows today_df) as [|r rs] eqn:Er; simpl.
      * split; [|now left].
        constructor; [exact I|]. apply Forall_app. split; [exact Htr|].
        repeat constructor.
      * split.
        -- constructor; [exact I|]. apply Forall_app. split; [exact Htr|].
           repeat constructor.
        -- right. exists today_df. rewrite Er. repeat split. discriminate.
Qed.

(** The shape of a run whose source file cannot be loaded. *)
Lemma main_load_fails (args : Args) (tr : list event) (e : exn) :
  _load_parquet_series L W (parquet_path O args) = (tr, inl e) ->
  main L O W args
  = (MakeDirs (input_dir O) :: Print (MsgReading (parquet_path O args))
       :: tr ++ [Print (MsgErrorReadingParquet e)], inr 1%Z).
Proof.
  unfold main. intros ->. simpl. now rewrite app_nil_r.
Qed.

(** The shape of a run whose source file loads. *)
Lemma main_load_ok (args : Args) (tr tr' : list event) (local_df merged : table) :
  _load_parquet_series L W (parquet_path O args) = (tr, inr local_df) ->
  merge_today L W args local_df = (tr', inr merged) ->
  main L O W args
  = (MakeDirs (input_dir O) :: Print (MsgReading (parquet_path O args))
       :: tr ++ tr'
       ++ [Print (MsgSaving (List.length (rows (final_table L args merged)))
                    (output_csv_path O args));
           ToCsv (output_csv_path O args) (rows (final_table L args merged));
           Print MsgDone;
           Print (MsgTable (tail 5 (rows (final_table L args merged))))],
     inr 0%Z).
Proof.
  unfold main. intros ->. simpl. intros ->. simpl.
  now rewrite app_nil_r.
Qed.

Lemma merge_events_no_csv (tr : list event) :
  Forall merge_event tr -> no_csv tr.
Proof.
  unfold no_csv. induction 1 as [|ev tr Hev _ IH]; [reflexivity|].
  simpl. rewrite IH. now destruct ev.
Qed.

Lemma load_no_csv (p : str) : no_csv (trace (_load_parquet_series L W p)).
Proof. rewrite load_trace. now destruct (path_exists W p). Qed.

(** What a run writes and how it exits, by the outcome of loading. *)
Lemma run_summary (args : Args) :
  match outcome (_load_parquet_series L W (parquet_path O args)) with
  | inl e =>
      csv_written L O W args = [] /\ exit_code L O W args = 1%Z /\
      In (MsgErrorReadingParquet e) (printed L O W args)
  | inr local_df =>
      exists merged,
        outcome (merge_today L W args local_df) = inr merged /\
        csv_written L O W args
        = [(output_csv_path O args, rows (final_table L args merged))] /\
        exit_code L O W args = 0%Z
  end.
Proof.
  pose proof (load_no_csv (parquet_path O args)) as Hload.
  destruct (_load_parquet_series L W (parquet_path O args))
    as [tr [e | local_df]] eqn:El; simpl in *.
  - unfold csv_written, exit_code, printed.
    rewrite (main_load_fails _ El). unfold trace, outcome. cbn [fst snd].
    repeat split.
    + cbn [flat_map app]. rewrite flat_map_app.
      unfold no_csv in Hload. now rewrite Hload.
    + apply in_flat_map. exists (Print (MsgErrorReadingParquet e)).
      split; [|now left].
      right. right. apply in_or_app. right. now left.
  - destruct (merge_today_outcome args local_df) as [Htr Hout].
    destruct (merge_today L W args local_df) as [tr' [e | merged]] eqn:Em.
    + exfalso. destruct Hout as [H | (? & _ & _ & H)]; discriminate.
    + exists merged. unfold csv_written, exit_code.
      rewrite (main_load_ok _ El Em). simpl.
      rewrite !flat_map_app.
      unfold no_csv in Hload. rewrite Hload.
      rewrite (merge_events_no_csv Htr). repeat split.
Qed.

(** ** The cleaning chain: dropna, sort_values, drop_duplicates *)

Lemma to_datetime_cell_datetime (c : cell) : datetime_cell (to_datetime_cell L c).
Proof.
  unfold to_datetime_cell, datetime_cell.
  destruct (to_datetime_scalar L c); eauto.
Qed.

Lemma dropna_clean_rows (l : list row) :
  Forall (fun r => datetime_cell (date r)) l -> Forall clean (dropna l).
Proof.
  rewrite !Forall_forall. intros H r Hr.
  apply PandasFacts.dropna_In in Hr. destruct Hr as (Hin & Hd & Hc).
  split; [|exact Hc].
  destruct (H r Hin) as [Hna | Ht]; [contradiction | exact Ht].
Qed.

Section Sorted.
Hypothesis sort_ok : sort_values_spec L.

Lemma tidy_In (r : row) (l : list row) :
  In r (tidy L l) -> In r l /\ date r <> NA /\ Close r <> NA.
Proof.
  unfold tidy. intros H.
  apply PandasFacts.drop_duplicates_last_incl in H.
  apply (Permutation_in _ (proj1 (sort_ok _))) in H.
  now apply PandasFacts.dropna_In.
Qed.

Lemma tidy_clean (l : list row) :
  Forall (fun r => datetime_cell (date r)) l -> Forall clean (tidy L l).
Proof.
  intros H. pose proof (dropna_clean_rows H) as Hc.
  rewrite Forall_forall in *. intros r Hr. apply Hc.
  unfold tidy in Hr. apply PandasFacts.drop_duplicates_last_incl in Hr.
  now apply (Permutation_in _ (proj1 (sort_ok _))) in Hr.
Qed.

Lemma tidy_sorted (l : list row) :
  Forall (fun r => datetime_cell (date r)) l -> StronglySorted date_le (tidy L l).
Proof.
  intros H. unfold tidy. apply PandasFacts.drop_duplicates_last_sorted.
  apply (proj2 (sort_ok _)).
  eapply Forall_impl; [|exact (dropna_clean_rows H)].
  now intros r [Ht _].
Qed.

Lemma tidy_NoDup (l : list row) : NoDup (map date (tidy L l)).
Proof. apply PandasFacts.drop_duplicates_last_NoDup. Qed.

End Sorted.

(** ** Frames *)

Lemma str_eqb_refl (a : str) : str_eqb a a = true.
Proof. now apply PandasFacts.str_eqb_eq. Qed.

Lemma get_set_col (name : str) (v : list cell) (df : frame) :
  get_col name (set_col name v df) = v.
Proof.
  induction df as [|[n w] rest IH]; simpl.
  - now rewrite str_eqb_refl.
  - destruct (str_eqb name n) eqn:E; simpl; now rewrite E.
Qed.

Lemma get_col_rename (name old new : str) (df : frame) :
  str_eqb name old = false -> str_eqb name new = false ->
  get_col name (rename_col old new df) = get_col name df.
Proof.
  intros Ho Hn. induction df as [|[n w] rest IH]; simpl; [reflexivity|].
  destruct (str_eqb old n) eqn:E; simpl.
  - apply PandasFacts.str_eqb_eq in E. subst n. now rewrite Hn, Ho.
  - now rewrite IH.
Qed.

Lemma combine_dates (ds cs : list cell) (P : cell -> Prop) :
  Forall P ds -> Forall (fun r : row => P (date r)) (combine ds cs).
Proof.
  intros H. rewrite Forall_forall in *. intros [d c] Hin.
  apply in_combine_l in Hin. now apply H.
Qed.

Lemma datetime_column (cs : list cell) :
  Forall datetime_cell (map (to_datetime_cell L) cs).
Proof.
  apply Forall_forall. intros c Hin. apply in_map_iff in Hin.
  destruct Hin as (x & <- & _). apply to_datetime_cell_datetime.
Qed.

(** The rows of a loaded table are the cleaning chain applied to rows
    with a datetime column. *)
Lemma load_rows (p : str) (t : table) :
  outcome (_load_parquet_series L W p) = inr t ->
  date_dtype t = Datetime64 /\
  exists l, Forall (fun r => datetime_cell (date r)) l /\ rows t = tidy L l.
Proof.
  unfold _load_parquet_series, read_and_reset_index, outcome.
  unfold bind, ret, raise, emit, of_result.
  destruct (path_exists W p); cbn [negb]; [|discriminate].
  destruct (read_parquet W p) as [e | raw]; [discriminate|].
  destruct (has_col (reset_index_label raw) (data raw)); [discriminate|].
  generalize ((reset_index_label raw, index_values raw) :: data raw).
  intros df.
  assert (Hdone : forall src df' t',
             (get_col col_date df' = map (to_datetime_cell L) src) ->
             inr {| date_dtype := Datetime64;
                    rows := drop_duplicates_last
                              (sort_values L
                                 (dropna (combine (get_col col_date df')
                                            (get_col col_Close df')))) |}
             = inr (A := exn) t' ->
             date_dtype t' = Datetime64 /\
             exists l, Forall (fun r => datetime_cell (date r)) l /\
                       rows t' = tidy L l).
  { intros src df' t' Hsrc H. injection H as <-. split; [reflexivity|].
    eexists. split; [|reflexivity]. apply combine_dates.
    rewrite Hsrc. apply datetime_column. }
  repeat match goal with
         | |- context [has_col ?c ?d] =>
             destruct (has_col c d) eqn:?; cbn beta iota delta [negb fst snd app]
         end; try discriminate;
    first [ solve [ apply Hdone with (src := get_col col_trade_time df);
                    rewrite ?get_col_rename by reflexivity;
                    apply get_set_col ]
          | solve [ apply Hdone with (src := get_col col_date df);
                    rewrite ?get_col_rename by reflexivity;
                    apply get_set_col ] ].
Qed.

Lemma today_table_rows (df : frame) (t : table) :
  outcome (today_table L df) = inr t ->
  rows t = [] \/
  (date_dtype t = Datetime64 /\
   exists l, Forall (fun r => datetime_cell (date r)) l /\ rows t = tidy L l).
Proof.
  unfold today_table, outcome.
  destruct (frame_len df =? 0); simpl.
  - intros H. injection H as <-. now left.
  - destruct (if has_col col_ak_time df then _ else _) as [ct|];
      [|discriminate].
    destruct (if has_col col_ak_close df then _ else _) as [cc|];
      [|discriminate].
    simpl. intros H. injection H as <-. right. split; [reflexivity|].
    eexists. split; [|reflexivity]. apply combine_dates, datetime_column.
Qed.

Lemma fetch_rows (s : str) (t : table) :
  outcome (_fetch_today_1m_from_akshare L W s) = inr t ->
  rows t = [] \/
  (date_dtype t = Datetime64 /\
   exists l, Forall (fun r => datetime_cell (date r)) l /\ rows t = tidy L l).
Proof.
  unfold _fetch_today_1m_from_akshare.
  destruct (stock_zh_a_hist_min_em W) as [call|]; [|discriminate].
  destruct (call s (today W)) as [e | | df | [df|]]; simpl.
  - discriminate.
  - intros H. injection H as <-. now left.
  - pose proof (@today_table_rows df) as Hd.
    destruct (today_table L df) as [tr r]. simpl in *. exact (Hd t).
  - pose proof (@today_table_rows df) as Hd.
    destruct (today_table L df) as [tr r]. simpl in *. exact (Hd t).
  - intros H. injection H as <-. now left.
Qed.

(** ** The merged table *)

Lemma combine_date_Close (l : list row) : combine (map date l) (map Close l) = l.
Proof.
  induction l as [|[d c] l IH]; simpl; [reflexivity|]. now rewrite IH.
Qed.

(** On a table whose date column is of datetime dtype, lines 148 to 150
    are the cleaning chain on its rows. *)
Lemma normalize_datetime (t : table) :
  date_dtype t = Datetime64 -> rows (normalize L t) = tidy L (rows t).
Proof.
  unfold normalize, _ensure_datetime, is_datetime64_any_dtype, date_series.
  simpl. intros ->. simpl. now rewrite combine_date_Close.
Qed.

Lemma normalize_rows (t : table) :
  well_typed t ->
  exists l, Forall (fun r => datetime_cell (date r)) l /\
            rows (normalize L t) = tidy L l.
Proof.
  intros Hwt. unfold normalize, _ensure_datetime, is_datetime64_any_dtype,
    date_series. simpl.
  destruct (date_dtype t) eqn:E; simpl.
  - rewrite combine_date_Close. exists (rows t). split; [now apply Hwt|].
    reflexivity.
  - eexists. split; [|reflexivity].
    apply combine_dates, datetime_column.
Qed.

Lemma truncate_suffix (n : Z) (t : table) :
  exists dropped, rows t = dropped ++ rows (truncate n t).
Proof.
  unfold truncate. destruct (negb (n =? 0)%Z && (0 <? n)%Z); simpl.
  - apply PandasFacts.tail_suffix.
  - now exists [].
Qed.

Section SortedRun.
Hypothesis sort_ok : sort_values_spec L.

Lemma tidy_well_typed (dt : dtype) (l : list row) :
  Forall (fun r => datetime_cell (date r)) l ->
  well_typed {| date_dtype := dt; rows := tidy L l |}.
Proof.
  intros H _. simpl. eapply Forall_impl; [|exact (tidy_clean sort_ok H)].
  intros r [Ht _]. now right.
Qed.

Lemma load_well_typed (p : str) (t : table) :
  outcome (_load_parquet_series L W p) = inr t -> well_typed t.
Proof.
  intros H. destruct (load_rows _ H) as (Hd & l & Hl & Hr).
  destruct t as [dt rs]. simpl in *. subst. now apply tidy_well_typed.
Qed.

Lemma fetch_well_typed (s : str) (t : table) :
  outcome (_fetch_today_1m_from_akshare L W s) = inr t -> well_typed t.
Proof.
  intros H. destruct (fetch_rows _ H) as [He | (Hd & l & Hl & Hr)].
  - intros _. rewrite He. constructor.
  - destruct t as [dt rs]. simpl in *. subst. now apply tidy_well_typed.
Qed.

Lemma concat_well_typed (a b : table) :
  well_typed a -> well_typed b -> well_typed (concat a b).
Proof.
  unfold well_typed, concat. simpl. intros Ha Hb.
  destruct (date_dtype a), (date_dtype b); try discriminate.
  intros _. apply Forall_app. split; auto.
Qed.

(** Whatever the merge step ends with is well typed. *)
Lemma merged_well_typed (args : Args) (local_df merged : table) :
  outcome (_load_parquet_series L W (parquet_path O args)) = inr local_df ->
  outcome (merge_today L W args local_df) = inr merged ->
  well_typed merged.
Proof.
  intros Hl Hm. pose proof (load_well_typed _ Hl) as Hwl.
  destruct (merge_today_outcome args local_df) as [_ [H | (td & Hf & _ & H)]];
    rewrite H in Hm; injection Hm as <-; [exact Hwl|].
  apply concat_well_typed; [exact Hwl|]. exact (fetch_well_typed _ Hf).
Qed.

(** The table written by a run is a final stretch of a cleaned list. *)
Lemma written_rows (args : Args) (p : str) (t : list row) :
  In (p, t) (csv_written L O W args) ->
  exists l dropped,
    Forall (fun r => datetime_cell (date r)) l /\ tidy L l = dropped ++ t.
Proof.
  intros Hin. pose proof (run_summary args) as Hs.
  destruct (outcome (_load_parquet_series L W (parquet_path O args)))
    as [e | local_df] eqn:El.
  - destruct Hs as [Hs _]. rewrite Hs in Hin. contradiction.
  - destruct Hs as (merged & Hm & Hs & _). rewrite Hs in Hin.
    destruct Hin as [Heq | []]. injection Heq as _ <-.
    destruct (normalize_rows (merged_well_typed _ El Hm)) as (l & Hl & Hn).
    destruct (truncate_suffix (tail_arg args) (normalize L merged))
      as (dropped & Hd).
    exists l, dropped. split; [exact Hl|].
    unfold final_table. now rewrite <- Hn.
Qed.

End SortedRun.

End Run.
End PrepareFacts.

(** ** The stable insertion sort meets both contracts *)

Module ExamplesFacts.
Import PyStr Pandas Examples.

Lemma insert_stable_perm (r : row) (l : list row) :
  Permutation (insert_stable r l) (r :: l).
Proof.
  induction l as [|x t IH]; simpl; [reflexivity|].
  destruct (key_leb (ts r) (ts x)); [reflexivity|].
  rewrite IH. apply perm_swap.
Qed.

Lemma sort_stable_perm (l : list row) : Permutation (sort_stable l) l.
Proof.
  induction l as [|r l IH]; simpl; [reflexivity|].
  rewrite insert_stable_perm. now constructor.
Qed.

Lemma date_le_of_keys (a b : row) :
  has_ts a -> has_ts b -> key_leb (ts a) (ts b) = false -> date_le b a.
Proof.
  intros [x Hx] [y Hy]. unfold date_le, ts. rewrite Hx, Hy. simpl.
  intros H. apply Z.leb_gt in H. lia.
Qed.

Lemma date_le_trans (a b c : row) :
  has_ts b -> date_le a b -> date_le b c -> date_le a c.
Proof.
  intros [y Hy]. unfold date_le, ts. rewrite Hy.
  destruct (date a), (date c); trivial. lia.
Qed.

Lemma insert_stable_sorted (r : row) (l : list row) :
  has_ts r -> Forall has_ts l ->
  StronglySorted date_le l -> StronglySorted date_le (insert_stable r l).
Proof.
  intros Hr Hl Hs. induction Hs as [|x t Hs IH Hx]; simpl.
  - repeat constructor.
  - inversion Hl as [|? ? Htx Htt]; subst.
    destruct (key_leb (ts r) (ts x)) eqn:E.
    + constructor; [now constructor|].
      assert (Hrx : date_le r x).
      { destruct Hr as [a Ha], Htx as [b Hb]. unfold date_le, ts in *.
        rewrite Ha, Hb in *. simpl in E. now apply Z.leb_le. }
      constructor; [exact Hrx|].
      rewrite Forall_forall in *. intros y Hy.
      apply date_le_trans with x; auto.
    + constructor; [now apply IH|].
      apply Forall_forall. intros y Hy.
      apply (Permutation_in _ (insert_stable_perm r t)) in Hy.
      destruct Hy as [<- | Hy].
      * now apply date_le_of_keys.
      * rewrite Forall_forall in Hx. now apply Hx.
Qed.

Lemma sort_stable_sorted (l : list row) :
  Forall has_ts l -> StronglySorted date_le (sort_stable l).
Proof.
  induction 1 as [|r l Hr Hl IH]; simpl; [constructor|].
  apply insert_stable_sorted; trivial.
  rewrite Forall_forall in *. intros y Hy. apply Hl.
  now apply (Permutation_in _ (sort_stable_perm l)).
Qed.

(** A row that is passed over on the way in has another date. *)
Lemma key_leb_false_dates (r x : row) :
  key_leb (ts r) (ts x) = false -> date x <> date r.
Proof.
  unfold ts. intros H Heq. rewrite Heq in H.
  destruct (date r); simpl in H; try discriminate.
  apply Z.leb_gt in H. lia.
Qed.

Lemma insert_stable_filter (d : cell) (r : row) (l : list row) :
  filter (fun x => cell_eqb d (date x)) (insert_stable r l)
  = filter (fun x => cell_eqb d (date x)) (r :: l).
Proof.
  induction l as [|x t IH]; [reflexivity|].
  cbn [insert_stable]. destruct (key_leb (ts r) (ts x)) eqn:E; [reflexivity|].
  cbn [filter] in *. rewrite IH.
  destruct (cell_eqb d (date r)) eqn:Er; [|reflexivity].
  apply PandasFacts.cell_eqb_eq in Er.
  apply key_leb_false_dates in E.
  assert (Hx : cell_eqb d (date x) = false)
    by (apply PandasFacts.cell_eqb_neq; congruence).
  now rewrite Hx.
Qed.

Lemma sort_stable_filter (d : cell) (l : list row) :
  filter (fun x => cell_eqb d (date x)) (sort_stable l)
  = filter (fun x => cell_eqb d (date x)) l.
Proof.
  induction l as [|r l IH]; [reflexivity|].
  cbn [sort_stable fold_right]. rewrite insert_stable_filter.
  cbn [filter]. fold (sort_stable l). now rewrite IH.
Qed.

Lemma lib_stable_spec : sort_values_spec lib_stable.
Proof.
  intros l. split; [apply sort_stable_perm | apply sort_stable_sorted].
Qed.

Lemma lib_stable_stable : sort_values_stable lib_stable.
Proof. intros l d. apply sort_stable_filter. Qed.

End ExamplesFacts.

(** * The claims *)

Import PyStr Pandas Effects Prepare Notions.

(** C9: [_ensure_datetime] is idempotent, applying it twice gives what
    applying it once gives, and a series whose dtype is already datetime
    comes back unchanged. *)
Theorem ensure_datetime_idempotent (L : Lib) (s : series) :
  _ensure_datetime L (_ensure_datetime L s) = _ensure_datetime L s /\
  (is_datetime64_any_dtype s = true -> _ensure_datetime L s = s).
Proof.
  unfold _ensure_datetime.
  destruct (is_datetime64_any_dtype s) eqn:E.
  - rewrite E. now split.
  - split; [reflexivity | discriminate].
Qed.

Lemma ensure_datetime_idempotent_witness :
  let s := {| dtype_of := Datetime64; values := [Timestamp 1; NA] |} in
  is_datetime64_any_dtype s = true /\
  _ensure_datetime Examples.lib_stable s = s.
Proof.
  split; [reflexivity|].
  apply (ensure_datetime_idempotent Examples.lib_stable). reflexivity.
Defined.

(** C3, as stated, fails when [--tail] is 0: a table of three rows keeps
    its three rows, not min(0, 3) = 0 of them. *)
Lemma truncate_zero_keeps_all :
  Z.of_nat (List.length (rows (truncate 0 Scenarios.three_rows)))
  <> Z.min 0 (Z.of_nat (List.length (rows Scenarios.three_rows))).
Proof. vm_compute. discriminate. Qed.

(** C3, amended: for a positive [--tail] N and a table of T rows the
    truncation leaves exactly min(N, T) rows, the last ones, which in a
    table sorted by date are those of the largest dates; for N at most 0
    the table is left as it is. *)
Theorem truncate_keeps_last (n : Z) (t : table) :
  ((0 < n)%Z ->
   Z.of_nat (List.length (rows (truncate n t)))
   = Z.min n (Z.of_nat (List.length (rows t))) /\
   exists dropped,
     rows t = dropped ++ rows (truncate n t) /\
     (StronglySorted date_le (rows t) ->
      forall x y, In x dropped -> In y (rows (truncate n t)) -> date_le x y))
  /\ ((n <= 0)%Z -> truncate n t = t).
Proof.
  split.
  - intros Hn. unfold truncate.
    assert (E0 : (n =? 0)%Z = false) by (apply Z.eqb_neq; lia).
    assert (E1 : (0 <? n)%Z = true) by (apply Z.ltb_lt; lia).
    rewrite E0, E1. cbn [negb andb rows]. unfold tail. rewrite E0, E1.
    split.
    + rewrite PandasFacts.last_rows_length. lia.
    + exists (firstn (List.length (rows t) - Z.to_nat n) (rows t)).
      split; [symmetry; apply firstn_skipn|].
      intros Hs x y Hx Hy.
      apply (PandasFacts.sorted_app_le (R := date_le)
               (firstn (List.length (rows t) - Z.to_nat n) (rows t))
               (last_rows (Z.to_nat n) (rows t))); trivial.
      unfold last_rows. now rewrite firstn_skipn.
  - intros Hn. unfold truncate.
    assert (E1 : (0 <? n)%Z = false) by (apply Z.ltb_ge; lia).
    now rewrite E1, andb_false_r.
Qed.

Lemma truncate_keeps_last_witness :
  Z.of_nat (List.length (rows (truncate 2 Scenarios.three_rows)))
  = Z.min 2 (Z.of_nat (List.length (rows Scenarios.three_rows))) /\
  truncate (-1) Scenarios.three_rows = Scenarios.three_rows.
Proof.
  split.
  - apply (proj1 (truncate_keeps_last 2 Scenarios.three_rows)). lia.
  - apply (proj2 (truncate_keeps_last (-1) Scenarios.three_rows)). lia.
Defined.

(** C8: every row written to the CSV has a parsed datetime in [date] and
    a [Close] that is not missing. *)
Theorem written_rows_have_date_and_close
    (L : Lib) (O : Os) (W : World) (args : Args) (p : str) (t : list row) :
  sort_values_spec L ->
  In (p, t) (csv_written L O W args) ->
  Forall (fun r => (exists ns, date r = Timestamp ns) /\ Close r <> NA) t.
Proof.
  intros Hsort Hin.
  destruct (PrepareFacts.written_rows O W Hsort _ _ _ Hin)
    as (l & dropped & Hl & Ht).
  pose proof (PrepareFacts.tidy_clean Hsort Hl) as Hc.
  rewrite Ht in Hc. apply Forall_app in Hc. exact (proj2 Hc).
Qed.

Lemma written_rows_have_date_and_close_witness :
  Forall (fun r => (exists ns, date r = Timestamp ns) /\ Close r <> NA)
         [(Timestamp 3, Num 99); (Timestamp 4, Num 40)].
Proof.
  apply (@written_rows_have_date_and_close
           Examples.lib_stable Examples.posix Scenarios.world Scenarios.args
           (lit "/srv/fincast/input/600869.SH.csv")).
  - exact ExamplesFacts.lib_stable_spec.
  - vm_compute. left. reflexivity.
Defined.

Lemma ascending_of_sorted (t : list row) :
  Forall has_ts t -> StronglySorted date_le t -> ascending_dates t.
Proof.
  induction t as [|r t IH]; intros Hts Hs.
  - exists []. split; [reflexivity | constructor].
  - inversion Hts as [|? ? [k Hk] Hts']; subst.
    inversion Hs as [|? ? Hs' Hall]; subst.
    destruct (IH Hts' Hs') as (keys & Hmap & Hkeys).
    exists (k :: keys). split; [simpl; now rewrite Hk, Hmap|].
    constructor; [exact Hkeys|].
    apply Forall_forall. intros k' Hk'.
    assert (Hin : In (Timestamp k') (map date t))
      by (rewrite Hmap; now apply in_map).
    apply in_map_iff in Hin. destruct Hin as (r' & Hr' & Hin).
    rewrite Forall_forall in Hall. specialize (Hall r' Hin).
    unfold date_le, ts in Hall. now rewrite Hk, Hr' in Hall.
Qed.

(** C2: the rows written to the CSV are in ascending order of [date]. *)
Theorem written_rows_sorted_by_date
    (L : Lib) (O : Os) (W : World) (args : Args) (p : str) (t : list row) :
  sort_values_spec L ->
  In (p, t) (csv_written L O W args) ->
  ascending_dates t.
Proof.
  intros Hsort Hin.
  destruct (PrepareFacts.written_rows O W Hsort _ _ _ Hin)
    as (l & dropped & Hl & Ht).
  pose proof (PrepareFacts.tidy_clean Hsort Hl) as Hc.
  pose proof (PrepareFacts.tidy_sorted Hsort Hl) as Hs.
  rewrite Ht in Hc, Hs. apply Forall_app in Hc.
  apply ascending_of_sorted.
  - eapply Forall_impl; [|exact (proj2 Hc)]. now intros r [Hr _].
  - exact (PandasFacts.suffix_sorted _ _ Hs).
Qed.

Lemma written_rows_sorted_by_date_witness :
  ascending_dates [(Timestamp 3, Num 99); (Timestamp 4, Num 40)].
Proof.
  apply (@written_rows_sorted_by_date
           Examples.lib_stable Examples.posix Scenarios.world Scenarios.args
           (lit "/srv/fincast/input/600869.SH.csv")).
  - exact ExamplesFacts.lib_stable_spec.
  - vm_compute. left. reflexivity.
Defined.

(** C4: when the source file is missing or cannot be read the run ends
    with exit code 1 and writes no CSV; when the source file loads the
    run writes its CSV and ends with exit code 0. *)
Theorem exit_code_follows_source
    (L : Lib) (O : Os) (W : World) (args : Args) :
  ((path_exists W (parquet_path O args) = false \/
    exists e, read_parquet W (parquet_path O args) = inl e) ->
   exit_code L O W args = 1%Z /\ csv_written L O W args = [])
  /\
  (forall local_df,
     outcome (_load_parquet_series L W (parquet_path O args)) = inr local_df ->
     exit_code L O W args = 0%Z /\
     exists t, csv_written L O W args = [(output_csv_path O args, t)]).
Proof.
  pose proof (PrepareFacts.run_summary L O W args) as Hs.
  split.
  - intros Hbad.
    assert (Hl : exists e,
               outcome (_load_parquet_series L W (parquet_path O args))
               = inl e).
    { destruct (path_exists W (parquet_path O args)) eqn:Ex.
      - destruct Hbad as [Hf | [e He]]; [discriminate|].
        exists e. now rewrite (PrepareFacts.load_unreadable L W _ Ex He).
      - eexists. now rewrite (PrepareFacts.load_missing L W _ Ex). }
    destruct Hl as [e He]. rewrite He in Hs. tauto.
  - intros local_df Hl. rewrite Hl in Hs.
    destruct Hs as (merged & _ & Hcsv & Hexit).
    split; [exact Hexit|]. eexists. exact Hcsv.
Qed.

Lemma exit_code_follows_source_witness :
  (exit_code Examples.lib_stable Examples.posix Scenarios.world_missing
     Scenarios.args = 1%Z /\
   csv_written Examples.lib_stable Examples.posix Scenarios.world_missing
     Scenarios.args = [])
  /\
  exit_code Examples.lib_stable Examples.posix Scenarios.world
    Scenarios.args = 0%Z.
Proof.
  split.
  - apply (proj1 (exit_code_follows_source Examples.lib_stable Examples.posix
                    Scenarios.world_missing Scenarios.args)).
    left. reflexivity.
  - eapply (proj2 (exit_code_follows_source Examples.lib_stable Examples.posix
                     Scenarios.world Scenarios.args)).
    vm_compute. reflexivity.
Defined.

(** A run whose merge step ends with the local table alone. *)
Lemma run_with_local_only
    (L : Lib) (O : Os) (W : World) (args : Args)
    (tr tr' : list event) (local_df : table) :
  _load_parquet_series L W (parquet_path O args) = (tr, inr local_df) ->
  merge_today L W args local_df = (tr', inr local_df) ->
  exit_code L O W args = 0%Z /\
  csv_written L O W args
  = [(output_csv_path O args,
      rows (truncate (tail_arg args) (normalize L local_df)))] /\
  (forall m, In (Print m) tr' -> In m (printed L O W args)) /\
  (provider_calls L O W args
   = flat_map (fun ev => match ev with
                         | AkshareRequest s d => [(s, d)]
                         | _ => []
                         end) tr').
Proof.
  intros Hl Hm.
  pose proof (PrepareFacts.run_summary L O W args) as Hs.
  rewrite Hl in Hs. cbn [outcome snd] in Hs.
  destruct Hs as (merged & Hm' & Hcsv & Hexit).
  rewrite Hm in Hm'. injection Hm' as <-.
  split; [exact Hexit|]. split; [exact Hcsv|].
  unfold printed, provider_calls.
  rewrite (@PrepareFacts.main_load_ok L O W args tr tr' local_df local_df Hl Hm). unfold trace. cbn [fst].
  split.
  - intros m Hin. apply in_flat_map. exists (Print m). split; [|now left].
    right. right. apply in_or_app. right. apply in_or_app. now left.
  - cbn [flat_map app]. rewrite !flat_map_app. cbn [flat_map app].
    rewrite app_nil_r.
    pose proof (PrepareFacts.load_trace L W (parquet_path O args)) as Ht.
    rewrite Hl in Ht. unfold trace in Ht. cbn [fst] in Ht. rewrite Ht.
    now destruct (path_exists W (parquet_path O args)).
Qed.

(** C5: with [--use-akshare], when the fetch raises an exception the run
    prints a warning, goes on with the rows of the parquet file alone,
    writes the CSV and ends with exit code 0. *)
Theorem fetch_failure_is_not_fatal
    (L : Lib) (O : Os) (W : World) (args : Args)
    (local_df : table) (e : exn) :
  use_akshare args = true ->
  outcome (_load_parquet_series L W (parquet_path O args)) = inr local_df ->
  _symbol_to_akshare_6 (strip (symbol args)) <> [] ->
  outcome (_fetch_today_1m_from_akshare L W
             (_symbol_to_akshare_6 (strip (symbol args)))) = inl e ->
  In (MsgWarnFetchFailed e) (printed L O W args) /\
  csv_written L O W args
  = [(output_csv_path O args,
      rows (truncate (tail_arg args) (normalize L local_df)))] /\
  exit_code L O W args = 0%Z.
Proof.
  intros Hu Hl Hsym Hf.
  destruct (_load_parquet_series L W (parquet_path O args))
    as [tr r] eqn:El. cbn [outcome snd] in Hl. subst r.
  destruct (_fetch_today_1m_from_akshare L W
              (_symbol_to_akshare_6 (strip (symbol args))))
    as [trf rf] eqn:Ef. cbn [outcome snd] in Hf. subst rf.
  assert (Hm : merge_today L W args local_df
               = (Print (MsgFetching (_symbol_to_akshare_6
                                        (strip (symbol args))))
                    :: trf ++ [Print (MsgWarnFetchFailed e)],
                  inr local_df)).
  { unfold merge_today. rewrite Hu.
    destruct (_symbol_to_akshare_6 (strip (symbol args))) as [|c s];
      [contradiction|].
    rewrite Ef. reflexivity. }
  destruct (@run_with_local_only L O W args _ _ local_df El Hm) as (Hexit & Hcsv & Hpr & _).
  split; [|now split].
  apply Hpr. right. apply in_or_app. right. now left.
Qed.

Lemma fetch_failure_is_not_fatal_witness :
  In (MsgWarnFetchFailed (LibraryError (lit "connection timed out")))
     (printed Examples.lib_stable Examples.posix Scenarios.world_offline
        Scenarios.args) /\
  csv_written Examples.lib_stable Examples.posix Scenarios.world_offline
    Scenarios.args
  = [(lit "/srv/fincast/input/600869.SH.csv",
      [(Timestamp 1, Num 10); (Timestamp 3, Num 31)])] /\
  exit_code Examples.lib_stable Examples.posix Scenarios.world_offline
    Scenarios.args = 0%Z.
Proof.
  apply (@fetch_failure_is_not_fatal Examples.lib_stable Examples.posix
           Scenarios.world_offline Scenarios.args
           {| date_dtype := Datetime64;
              rows := [(Timestamp 1, Num 10); (Timestamp 3, Num 31)] |}).
  - reflexivity.
  - vm_compute. reflexivity.
  - vm_compute. discriminate.
  - vm_compute. reflexivity.
Defined.



(** ** explore_data.py *)

Lemma show_file_trace (W : World) (file_path : str) :
  exists tr,
    Explore.show_file W file_path = (ReadParquet file_path :: tr, inr tt) /\
    Forall (fun ev => exists m, ev = Print m) tr /\
    (forall df, read_parquet W file_path = inr df ->
                In (Print (MsgColumns (columns (data df)))) tr /\
                In (Print (MsgFrameTail
                             (tail 5 (index_values df))
                             (map (fun c => (fst c, tail 5 (snd c)))
                                  (data df)))) tr).
Proof.
  unfold Explore.show_file.
  destruct (read_parquet W file_path) as [e | df] eqn:E.
  - destruct e; eexists; (split; [reflexivity|]);
      (split; [repeat constructor; eexists; reflexivity | discriminate]).
  - eexists. split; [reflexivity|]. split.
    + repeat constructor; eexists; reflexivity.
    + intros df' H. injection H as <-. split; simpl; auto.
Qed.




(** ** The source file of a run *)




Lemma no_straddling_match (k : nat) :
  k < List.length (lit ".PARQUET") ->
  startswith (skipn k (lit ".PARQUET")) (lit ".parquet") = false.
Proof.
  intros Hk.
  do 8 (destruct k as [|k]; [reflexivity|]).
  simpl in Hk. lia.
Qed.



(** The slip next to it: an upper-case extension is not recognised as an
    extension, so the suffix is appended before the case is changed. *)
Example upper_case_extension :
  parquet_name {| symbol := lit "600869.SH.PARQUET"; data_dir := lit "/data";
                  tail_arg := 2000; use_akshare := false |}
  = lit "600869.SH.parquet.parquet".
Proof. reflexivity. Qed.

(** ** Which of two rows of the same minute survives the merge *)

Section Merge.
Variable L : Lib.

Lemma filter_absent_date (d : cell) (l : list row) :
  ~ In d (map date l) -> filter (same_date d) l = [].
Proof.
  induction l as [|x l IH]; [reflexivity|].
  simpl. intros H. unfold same_date at 1.
  assert (E : cell_eqb d (date x) = false)
    by (apply PandasFacts.cell_eqb_neq; intros ->; apply H; now left).
  rewrite E. apply IH. tauto.
Qed.

Lemma filter_unique_date (f : row) (l : list row) :
  NoDup (map date l) -> In f l -> filter (same_date (date f)) l = [f].
Proof.
  induction l as [|x l IH]; simpl; [tauto|].
  intros Hnd Hin. inversion Hnd as [|? ? Hx Hnd']; subst.
  unfold same_date at 1. destruct Hin as [-> | Hin].
  - rewrite PandasFacts.cell_eqb_refl. f_equal.
    now apply filter_absent_date.
  - assert (E : cell_eqb (date f) (date x) = false).
    { apply PandasFacts.cell_eqb_neq. intros Heq. apply Hx.
      rewrite <- Heq. now apply in_map. }
    rewrite E. now apply IH.
Qed.

(** Every merged table has at most one row per date, whatever order the
    sort gives to rows of equal date. *)
Lemma merged_dates_unique (merged : table) :
  NoDup (map date (rows (normalize L merged))).
Proof. apply PandasFacts.drop_duplicates_last_NoDup. Qed.

(** With a stable sort the row of today's table wins over a local row of
    the same date. *)
Lemma stable_merge_keeps_fetched (local_rows today_rows : list row) (r f : row) :
  sort_values_stable L ->
  NoDup (map date today_rows) ->
  Forall (fun x => date x <> NA /\ Close x <> NA) today_rows ->
  In r (tidy L (local_rows ++ today_rows)) ->
  In f today_rows -> date f = date r ->
  r = f.
Proof.
  intros Hstable Hnd Hclean Hr Hf Hd. unfold tidy in Hr.
  destruct (PandasFacts.drop_duplicates_last_is_last _ _ Hr)
    as (before & after & Hsplit & Hlast).
  pose proof (Hstable (dropna (local_rows ++ today_rows)) (date r)) as Hs.
  rewrite Hsplit, filter_app in Hs. cbn [filter] in Hs.
  rewrite PandasFacts.cell_eqb_refl in Hs.
  fold (same_date (date r)) in Hs.
  rewrite (@filter_absent_date (date r) after Hlast) in Hs.
  rewrite PandasFacts.dropna_app, filter_app in Hs.
  rewrite (@PandasFacts.dropna_clean today_rows Hclean) in Hs.
  rewrite <- Hd in Hs at 3. rewrite (@filter_unique_date f today_rows Hnd Hf) in Hs.
  now apply app_inj_tail in Hs.
Qed.

End Merge.

(** The same, for a whole run: with a stable sort, a written row whose
    minute was fetched today is today's row. *)
Lemma stable_sort_keeps_fetched
    (L : Lib) (O : Os) (W : World) (args : Args)
    (local_df today_df : table) (p : str) (t : list row) (r f : row) :
  sort_values_spec L -> sort_values_stable L ->
  outcome (_load_parquet_series L W (parquet_path O args)) = inr local_df ->
  outcome (merge_today L W args local_df) = inr (concat local_df today_df) ->
  outcome (_fetch_today_1m_from_akshare L W
             (_symbol_to_akshare_6 (strip (symbol args)))) = inr today_df ->
  rows today_df <> [] ->
  In (p, t) (csv_written L O W args) ->
  In r t -> In f (rows today_df) -> date f = date r ->
  r = f.
Proof.
  intros Hspec Hstable Hl Hm Hf Hne Hin Hr Hfin Hd.
  pose proof (PrepareFacts.run_summary L O W args) as Hs.
  rewrite Hl in Hs. destruct Hs as (merged & Hm' & Hcsv & _).
  rewrite Hm in Hm'. injection Hm' as <-.
  rewrite Hcsv in Hin. destruct Hin as [Heq | []]. injection Heq as _ <-.
  destruct (PrepareFacts.truncate_suffix (tail_arg args)
              (normalize L (concat local_df today_df))) as (dropped & Hdrop).
  assert (Hr' : In r (rows (normalize L (concat local_df today_df))))
    by (rewrite Hdrop; apply in_or_app; now right).
  destruct (PrepareFacts.load_rows _ _ _ Hl) as (Hdl & _).
  destruct (PrepareFacts.fetch_rows _ _ _ Hf) as [He | (Hdt & l & Hl' & Hrows)];
    [contradiction|].
  rewrite PrepareFacts.normalize_datetime in Hr'
    by (simpl; now rewrite Hdl, Hdt).
  simpl in Hr'.
  apply (@stable_merge_keeps_fetched L (rows local_df) (rows today_df));
    trivial.
  - rewrite Hrows. apply PrepareFacts.tidy_NoDup.
  - rewrite Hrows. apply Forall_forall. intros x Hx.
    now apply (PrepareFacts.tidy_In Hspec) in Hx.
Qed.

(** C1: the merged table has one row per date, but the row that is kept
    need not be the fetched one.  On eighteen rows, numpy's default
    argsort puts the fetched row of minute 9 in front of the local one:
    the median key of the range is the local minute 9, it is moved to the
    end as the pivot, and the fetched minute 9 is swapped in front of the
    place the pivot comes back to.  [keep="last"] then keeps the local
    price 109 and drops the fetched 209. *)
Theorem merge_keeps_stale_local_row :
  exists p t,
    Overlap.written = [(p, t)] /\
    NoDup (map date t) /\
    In (Timestamp 9, Num 209)
       (combine (get_col col_ak_time Overlap.provider_frame)
                (get_col col_ak_close Overlap.provider_frame)) /\
    In (Timestamp 9, Num 109) t /\
    ~ In (Timestamp 9, Num 209) t.
Proof.
  eexists. eexists. split; [vm_compute; reflexivity|].
  split; [|split; [|split]].
  - repeat (constructor;
            [simpl; intuition (try discriminate; try congruence)|]).
    constructor.
  - simpl. tauto.
  - simpl. tauto.
  - simpl. intuition discriminate.
Qed.

(** On the same input a stable sort keeps the fetched price. *)
Example stable_sort_on_overlap :
  forall p t r,
    In (p, t) (csv_written Examples.lib_stable Examples.posix
                 Overlap.world Overlap.args) ->
    In r t -> date r = Timestamp 9 -> r = (Timestamp 9, Num 209).
Proof.
  intros p t r Hin Hr Hd. symmetry in Hd.
  apply (@stable_sort_keeps_fetched Examples.lib_stable Examples.posix
           Overlap.world Overlap.args
           {| date_dtype := Datetime64;
              rows := combine (index_values Overlap.stored)
                              (get_col col_close (data Overlap.stored)) |}
           {| date_dtype := Datetime64;
              rows := combine (get_col col_ak_time Overlap.provider_frame)
                              (get_col col_ak_close Overlap.provider_frame) |}
           p t r (Timestamp 9, Num 209));
    trivial.
  - exact ExamplesFacts.lib_stable_spec.
  - exact ExamplesFacts.lib_stable_stable.
  - vm_compute. discriminate.
  - vm_compute. tauto.
Qed.

(** * Further properties of the scripts *)

Import Cases.

(** What a run writes is a final stretch of the normalised merged
    table, whatever the library does. *)
Lemma written_is_suffix
    (L : Lib) (O : Os) (W : World) (args : Args) (p : str) (t : list row) :
  In (p, t) (csv_written L O W args) ->
  p = output_csv_path O args /\
  exists local_df merged dropped,
    outcome (_load_parquet_series L W (parquet_path O args)) = inr local_df /\
    outcome (merge_today L W args local_df) = inr merged /\
    rows (normalize L merged) = dropped ++ t /\
    t = rows (truncate (tail_arg args) (normalize L merged)).
Proof.
  intros Hin. pose proof (PrepareFacts.run_summary L O W args) as Hs.
  destruct (outcome (_load_parquet_series L W (parquet_path O args)))
    as [e | local_df] eqn:El.
  - destruct Hs as [Hs _]. rewrite Hs in Hin. contradiction.
  - destruct Hs as (merged & Hm & Hs & _). rewrite Hs in Hin.
    destruct Hin as [Heq | []]. injection Heq as <- <-.
    split; [reflexivity|].
    destruct (PrepareFacts.truncate_suffix (tail_arg args)
                (normalize L merged)) as (dropped & Hd).
    exists local_df, merged, dropped. repeat split; trivial.
Qed.

(** X1: no two rows of a written CSV have the same date, whatever order
    the library's sort gives to the rows. *)
Theorem written_dates_are_distinct
    (L : Lib) (O : Os) (W : World) (args : Args) (p : str) (t : list row) :
  In (p, t) (csv_written L O W args) -> NoDup (map date t).
Proof.
  intros Hin.
  destruct (written_is_suffix _ _ _ _ _ _ Hin)
    as (_ & local_df & merged & dropped & _ & _ & Hrows & _).
  pose proof (PandasFacts.drop_duplicates_last_NoDup
                (sort_values L
                   (dropna (rows (set_date_series merged
                                    (_ensure_datetime L
                                       (date_series merged))))))) as Hnd.
  change (NoDup (map date (rows (normalize L merged)))) in Hnd.
  rewrite Hrows, map_app in Hnd.
  exact (NoDup_app_remove_l _ _ Hnd).
Qed.

Lemma written_dates_are_distinct_witness :
  NoDup (map date [(Timestamp 3, Num 99); (Timestamp 4, Num 40)]).
Proof.
  apply (@written_dates_are_distinct
           NumpyQuicksort.lib Examples.posix Scenarios.world Scenarios.args
           (lit "/srv/fincast/input/600869.SH.csv")).
  vm_compute. left. reflexivity.
Defined.

(** X2: a run first creates the input directory, then either writes
    exactly one CSV, at the output path, and exits with 0, or writes
    none and exits with 1. *)
Theorem exit_code_tells_what_was_written
    (L : Lib) (O : Os) (W : World) (args : Args) :
  hd_error (trace (main L O W args)) = Some (MakeDirs (input_dir O)) /\
  ((exit_code L O W args = 0%Z /\
    exists t, csv_written L O W args = [(output_csv_path O args, t)]) \/
   (exit_code L O W args = 1%Z /\ csv_written L O W args = [])).
Proof.
  pose proof (PrepareFacts.run_summary L O W args) as Hs.
  split.
  - destruct (_load_parquet_series L W (parquet_path O args))
      as [tr [e | local_df]] eqn:El.
    + now rewrite (@PrepareFacts.main_load_fails L O W args tr e El).
    + destruct (PrepareFacts.merge_today_outcome L W args local_df)
        as [_ Hout].
      destruct (merge_today L W args local_df) as [tr' [e | merged]] eqn:Em.
      * exfalso. destruct Hout as [H | (? & _ & _ & H)]; discriminate.
      * now rewrite (@PrepareFacts.main_load_ok L O W args tr tr' local_df
                       merged El Em).
  - destruct (outcome (_load_parquet_series L W (parquet_path O args)))
      as [e | local_df].
    + right. tauto.
    + left. destruct Hs as (merged & _ & Hcsv & Hexit). eauto.
Qed.

(** ** The cleaning chain on its own output *)

Lemma same_ts_same_date (a b : row) :
  has_ts a -> ts a = ts b -> date a = date b.
Proof.
  intros [x Hx]. unfold ts. rewrite Hx.
  destruct (date b); intros H; congruence.
Qed.

Lemma date_le_antisym (a b : row) :
  has_ts a -> has_ts b -> date_le a b -> date_le b a -> date a = date b.
Proof.
  intros Ha Hb Hab Hba. apply same_ts_same_date; [exact Ha|].
  destruct Ha as [x Hx], Hb as [y Hy]. unfold date_le, ts in *.
  rewrite Hx, Hy in *. f_equal. lia.
Qed.

(** Two rows of one list of distinct dates that have the same date are
    the same row. *)
Lemma same_date_same_row (l : list row) (a b : row) :
  NoDup (map date l) -> In a l -> In b l -> date a = date b -> a = b.
Proof.
  induction l as [|x l IH]; simpl; [tauto|].
  intros Hnd Ha Hb Hd. inversion Hnd as [|? ? Hx Hnd']; subst.
  destruct Ha as [-> | Ha], Hb as [-> | Hb]; trivial.
  - exfalso. apply Hx. rewrite Hd. now apply in_map.
  - exfalso. apply Hx. rewrite <- Hd. now apply in_map.
  - now apply IH.
Qed.

(** There is one way only to put rows of distinct dates in order. *)
Lemma sorted_rows_unique (l1 l2 : list row) :
  Permutation l1 l2 ->
  StronglySorted date_le l1 -> StronglySorted date_le l2 ->
  Forall has_ts l1 -> NoDup (map date l1) ->
  l1 = l2.
Proof.
  revert l2. induction l1 as [|x t1 IH]; intros l2 Hp Hs1 Hs2 Hts Hnd.
  - now apply Permutation_nil in Hp.
  - destruct l2 as [|y t2];
      [apply Permutation_sym, Permutation_nil in Hp; discriminate|].
    assert (Hxy : x = y).
    { assert (Hx : In x (y :: t2))
        by (apply (Permutation_in _ Hp); now left).
      assert (Hy : In y (x :: t1))
        by (apply (Permutation_in _ (Permutation_sym Hp)); now left).
      destruct Hx as [Hx | Hx]; [now symmetry|].
      destruct Hy as [Hy | Hy]; [exact Hy|].
      inversion Hs1 as [|? ? _ Hall1]; subst.
      inversion Hs2 as [|? ? _ Hall2]; subst.
      rewrite Forall_forall in Hall1, Hall2, Hts.
      apply (same_date_same_row (x :: t1)); trivial;
        [now left | now right|].
      apply date_le_antisym; auto.
      - apply Hts. now left.
      - apply Hts. now right. }
    subst y. f_equal.
    apply IH.
    + exact (Permutation_cons_inv Hp).
    + now inversion Hs1.
    + now inversion Hs2.
    + now inversion Hts.
    + now inversion Hnd.
Qed.

Lemma drop_duplicates_last_distinct (l : list row) :
  NoDup (map date l) -> drop_duplicates_last l = l.
Proof.
  induction l as [|x t IH]; [reflexivity|].
  simpl. intros Hnd. inversion Hnd as [|? ? Hx Hnd']; subst.
  apply PandasFacts.no_later_row in Hx. rewrite Hx. now rewrite IH.
Qed.

(** X3: the cleaning chain (dropna, sort_values, drop_duplicates) leaves
    its own output as it is, for every sort that returns the same rows
    in ascending order. *)
Theorem tidy_idempotent (L : Lib) (l : list row) :
  sort_values_spec L ->
  Forall (fun r => datetime_cell (date r)) l ->
  tidy L (tidy L l) = tidy L l.
Proof.
  intros Hsort Hl.
  pose proof (PrepareFacts.tidy_clean Hsort Hl) as Hclean.
  pose proof (PrepareFacts.tidy_sorted Hsort Hl) as Hsorted.
  pose proof (PrepareFacts.tidy_NoDup L l) as Hnd.
  assert (Hts : Forall has_ts (tidy L l))
    by (eapply Forall_impl; [|exact Hclean]; now intros r [Hr _]).
  unfold tidy at 1.
  rewrite PandasFacts.dropna_clean.
  - destruct (Hsort (tidy L l)) as [Hperm Hs].
    rewrite <- (@sorted_rows_unique (tidy L l) (sort_values L (tidy L l)));
      auto using Permutation_sym.
    now apply drop_duplicates_last_distinct.
  - apply Forall_forall. intros r Hr.
    now apply (PrepareFacts.tidy_In Hsort) in Hr.
Qed.

Lemma tidy_idempotent_witness :
  let l := [(Timestamp 3, Num 30); (Timestamp 1, NA); (Timestamp 1, Num 10);
            (NA, Num 7); (Timestamp 3, Num 31)] in
  tidy Examples.lib_stable (tidy Examples.lib_stable l)
  = tidy Examples.lib_stable l.
Proof.
  apply tidy_idempotent.
  - exact ExamplesFacts.lib_stable_spec.
  - repeat (apply Forall_cons; [unfold datetime_cell; simpl; eauto|]).
    apply Forall_nil.
Defined.

(** ** The tables that loading and fetching return *)

Lemma strictly_ascending_of_sorted (t : list row) :
  Forall has_ts t -> StronglySorted date_le t -> NoDup (map date t) ->
  strictly_ascending_dates t.
Proof.
  induction t as [|r t IH]; intros Hts Hs Hnd.
  - exists []. split; [reflexivity | constructor].
  - inversion Hts as [|? ? [k Hk] Hts']; subst.
    inversion Hs as [|? ? Hs' Hall]; subst.
    inversion Hnd as [|? ? Hr Hnd']; subst.
    destruct (IH Hts' Hs' Hnd') as (keys & Hmap & Hkeys).
    exists (k :: keys). split; [simpl; now rewrite Hk, Hmap|].
    constructor; [exact Hkeys|].
    apply Forall_forall. intros k' Hk'.
    assert (Hin : In (Timestamp k') (map date t))
      by (rewrite Hmap; now apply in_map).
    assert (Hne : k <> k') by (intros ->; apply Hr; now rewrite Hk).
    apply in_map_iff in Hin. destruct Hin as (r' & Hr' & Hin).
    rewrite Forall_forall in Hall. specialize (Hall r' Hin).
    unfold date_le, ts in Hall. rewrite Hk, Hr' in Hall. lia.
Qed.

Lemma tidy_strictly_ascending (L : Lib) (l : list row) :
  sort_values_spec L ->
  Forall (fun r => datetime_cell (date r)) l ->
  Forall clean (tidy L l) /\ strictly_ascending_dates (tidy L l).
Proof.
  intros Hsort Hl.
  pose proof (PrepareFacts.tidy_clean Hsort Hl) as Hclean.
  split; [exact Hclean|].
  apply strictly_ascending_of_sorted.
  - eapply Forall_impl; [|exact Hclean]. now intros r [Hr _].
  - now apply PrepareFacts.tidy_sorted.
  - apply PrepareFacts.tidy_NoDup.
Qed.

(** X4: a table returned by [_load_parquet_series] has a datetime date
    column, no missing date or price, and strictly ascending dates. *)
Theorem loaded_table_is_clean (L : Lib) (W : World) (p : str) (t : table) :
  sort_values_spec L ->
  outcome (_load_parquet_series L W p) = inr t ->
  date_dtype t = Datetime64 /\
  Forall (fun r => (exists ns, date r = Timestamp ns) /\ Close r <> NA)
         (rows t) /\
  strictly_ascending_dates (rows t).
Proof.
  intros Hsort Hl.
  destruct (PrepareFacts.load_rows _ _ _ Hl) as (Hd & l & Hdates & Hrows).
  split; [exact Hd|]. rewrite Hrows.
  now apply tidy_strictly_ascending.
Qed.

Lemma loaded_table_is_clean_witness :
  let t := {| date_dtype := Datetime64;
              rows := [(Timestamp 1, Num 10); (Timestamp 3, Num 31)] |} in
  date_dtype t = Datetime64 /\
  Forall (fun r => (exists ns, date r = Timestamp ns) /\ Close r <> NA)
         (rows t) /\
  strictly_ascending_dates (rows t).
Proof.
  apply (@loaded_table_is_clean Examples.lib_stable Scenarios.world
           (lit "/data/600869.SH.parquet")).
  - exact ExamplesFacts.lib_stable_spec.
  - vm_compute. reflexivity.
Defined.

(** X5: a table returned by [_fetch_today_1m_from_akshare] has no
    missing date or price and strictly ascending dates; its date column
    is of datetime dtype as soon as it has a row. *)
Theorem fetched_table_is_clean (L : Lib) (W : World) (s : str) (t : table) :
  sort_values_spec L ->
  outcome (_fetch_today_1m_from_akshare L W s) = inr t ->
  Forall (fun r => (exists ns, date r = Timestamp ns) /\ Close r <> NA)
         (rows t) /\
  strictly_ascending_dates (rows t) /\
  (rows t <> [] -> date_dtype t = Datetime64).
Proof.
  intros Hsort Hf.
  destruct (PrepareFacts.fetch_rows _ _ _ Hf)
    as [He | (Hd & l & Hdates & Hrows)].
  - rewrite He. split; [constructor|]. split; [|congruence].
    exists []. split; [reflexivity | constructor].
  - rewrite Hrows.
    destruct (tidy_strictly_ascending Hsort Hdates) as [Hc Ha].
    repeat split; trivial.
Qed.

Lemma fetched_table_is_clean_witness :
  let t := {| date_dtype := Datetime64;
              rows := [(Timestamp 3, Num 99); (Timestamp 4, Num 40)] |} in
  Forall (fun r => (exists ns, date r = Timestamp ns) /\ Close r <> NA)
         (rows t) /\
  strictly_ascending_dates (rows t) /\
  (rows t <> [] -> date_dtype t = Datetime64).
Proof.
  apply (@fetched_table_is_clean Examples.lib_stable Scenarios.world
           (lit "600869")).
  - exact ExamplesFacts.lib_stable_spec.
  - vm_compute. reflexivity.
Defined.

(** Lines 148 to 150 change nothing in a table that was just loaded. *)
Lemma normalize_loaded (L : Lib) (W : World) (p : str) (t : table) :
  sort_values_spec L ->
  outcome (_load_parquet_series L W p) = inr t ->
  normalize L t = t.
Proof.
  intros Hsort Hl.
  destruct (PrepareFacts.load_rows _ _ _ Hl) as (Hd & l & Hdates & Hrows).
  assert (Hr : rows (normalize L t) = rows t).
  { rewrite (PrepareFacts.normalize_datetime L _ Hd), Hrows.
    now apply tidy_idempotent. }
  destruct t as [dt rs]. simpl in *. subst dt.
  unfold normalize, _ensure_datetime, is_datetime64_any_dtype, date_series
    in *. simpl in *. now rewrite Hr.
Qed.

(** X6: without [--use-akshare] the provider is never called, and the
    CSV holds the rows of the loaded table as they are: the last N of
    them for a positive [--tail] N, all of them otherwise. *)
Theorem local_run_writes_loaded_rows
    (L : Lib) (O : Os) (W : World) (args : Args) (local_df : table) :
  sort_values_spec L ->
  use_akshare args = false ->
  outcome (_load_parquet_series L W (parquet_path O args)) = inr local_df ->
  provider_calls L O W args = [] /\
  csv_written L O W args
  = [(output_csv_path O args,
      if (0 <? tail_arg args)%Z
      then last_rows (Z.to_nat (tail_arg args)) (rows local_df)
      else rows local_df)] /\
  exit_code L O W args = 0%Z.
Proof.
  intros Hsort Hu Hl.
  pose proof (@normalize_loaded L W _ local_df Hsort Hl) as Hn.
  destruct (_load_parquet_series L W (parquet_path O args))
    as [tr r] eqn:El. cbn [outcome snd] in Hl. subst r.
  assert (Hm : merge_today L W args local_df = ([], inr local_df))
    by (unfold merge_today; now rewrite Hu).
  destruct (@run_with_local_only L O W args _ _ local_df El Hm)
    as (Hexit & Hcsv & _ & Hcalls).
  split; [exact Hcalls|]. split; [|exact Hexit].
  rewrite Hcsv, Hn. unfold truncate, tail.
  destruct (tail_arg args =? 0)%Z eqn:E0.
  - apply Z.eqb_eq in E0. rewrite E0. reflexivity.
  - cbn [negb andb]. now destruct (0 <? tail_arg args)%Z.
Qed.

Lemma local_run_writes_loaded_rows_witness :
  provider_calls Examples.lib_stable Examples.posix Scenarios.world
    args_local_only = [] /\
  csv_written Examples.lib_stable Examples.posix Scenarios.world
    args_local_only
  = [(lit "/srv/fincast/input/600869.SH.csv", [(Timestamp 3, Num 31)])] /\
  exit_code Examples.lib_stable Examples.posix Scenarios.world
    args_local_only = 0%Z.
Proof.
  apply (@local_run_writes_loaded_rows Examples.lib_stable Examples.posix
           Scenarios.world args_local_only
           {| date_dtype := Datetime64;
              rows := [(Timestamp 1, Num 10); (Timestamp 3, Num 31)] |}).
  - exact ExamplesFacts.lib_stable_spec.
  - reflexivity.
  - vm_compute. reflexivity.
Defined.

(** ** What the merge keeps *)










(** ** The provider's call *)




(** X11: when the fetch succeeds but brings no row, the run says so,
    goes on with the parquet rows alone, writes the CSV and exits
    with 0. *)
Theorem empty_fetch_falls_back_to_parquet
    (L : Lib) (O : Os) (W : World) (args : Args)
    (local_df today_df : table) :
  use_akshare args = true ->
  outcome (_load_parquet_series L W (parquet_path O args)) = inr local_df ->
  _symbol_to_akshare_6 (strip (symbol args)) <> [] ->
  outcome (_fetch_today_1m_from_akshare L W
             (_symbol_to_akshare_6 (strip (symbol args)))) = inr today_df ->
  rows today_df = [] ->
  In MsgWarnNoRows (printed L O W args) /\
  csv_written L O W args
  = [(output_csv_path O args,
      rows (truncate (tail_arg args) (normalize L local_df)))] /\
  exit_code L O W args = 0%Z.
Proof.
  intros Hu Hl Hsym Hf Hempty.
  destruct (_load_parquet_series L W (parquet_path O args))
    as [tr r] eqn:El. cbn [outcome snd] in Hl. subst r.
  destruct (_fetch_today_1m_from_akshare L W
              (_symbol_to_akshare_6 (strip (symbol args))))
    as [trf rf] eqn:Ef. cbn [outcome snd] in Hf. subst rf.
  assert (Hm : merge_today L W args local_df
               = (Print (MsgFetching (_symbol_to_akshare_6
                                        (strip (symbol args))))
                    :: trf ++ [Print (MsgAkshareRows 0); Print MsgWarnNoRows],
                  inr local_df)).
  { unfold merge_today. rewrite Hu.
    destruct (_symbol_to_akshare_6 (strip (symbol args))) as [|c s];
      [contradiction|].
    rewrite Ef. simpl. rewrite Hempty. reflexivity. }
  destruct (@run_with_local_only L O W args _ _ local_df El Hm)
    as (Hexit & Hcsv & Hpr & _).
  split; [|now split].
  apply Hpr. right. apply in_or_app. right. right. now left.
Qed.

Lemma empty_fetch_falls_back_to_parquet_witness :
  In MsgWarnNoRows
     (printed Examples.lib_stable Examples.posix (world_answering AkNone)
        Scenarios.args) /\
  csv_written Examples.lib_stable Examples.posix (world_answering AkNone)
    Scenarios.args
  = [(lit "/srv/fincast/input/600869.SH.csv",
      [(Timestamp 1, Num 10); (Timestamp 3, Num 31)])] /\
  exit_code Examples.lib_stable Examples.posix (world_answering AkNone)
    Scenarios.args = 0%Z.
Proof.
  apply (@empty_fetch_falls_back_to_parquet Examples.lib_stable
           Examples.posix (world_answering AkNone) Scenarios.args
           {| date_dtype := Datetime64;
              rows := [(Timestamp 1, Num 10); (Timestamp 3, Num 31)] |}
           empty_table).
  - reflexivity.
  - vm_compute. reflexivity.
  - vm_compute. discriminate.
  - vm_compute. reflexivity.
  - reflexivity.
Defined.

(** ** Source files without the expected columns *)

Lemma has_col_set_col (n name : str) (v : list cell) (df : frame) :
  str_eqb n name = false ->
  has_col n (set_col name v df) = has_col n df.
Proof.
  intros Hn. unfold has_col, columns.
  induction df as [|[c w] rest IH]; simpl.
  - now rewrite Hn.
  - destruct (str_eqb name c) eqn:E; simpl; [reflexivity|].
    now rewrite IH.
Qed.

Lemma columns_set_col (name : str) (v : list cell) (df : frame) :
  incl (columns df) (columns (set_col name v df)) /\
  In name (columns (set_col name v df)).
Proof.
  unfold columns. induction df as [|[c w] rest [IHi IHn]]; simpl.
  - split; [apply incl_nil_l | now left].
  - destruct (str_eqb name c) eqn:E; simpl.
    + apply PandasFacts.str_eqb_eq in E. subst c.
      split; [apply incl_refl | now left].
    + split; [|now right].
      intros x [<- | Hx]; [now left | right; now apply IHi].
Qed.

(** What loading ends with once the file has been read. *)
Lemma load_after_read (L : Lib) (W : World) (p : str) (raw : dataframe) :
  path_exists W p = true ->
  read_parquet W p = inr raw ->
  has_col (reset_index_label raw) (data raw) = false ->
  let df := reset_frame raw in
  (has_col col_trade_time df = false -> has_col col_date df = false ->
   outcome (_load_parquet_series L W p)
   = inl (ValueError_no_date (columns df))) /\
  (has_col col_trade_time df = true \/ has_col col_date df = true ->
   has_col col_Close df = false -> has_col col_close df = false ->
   exists cols,
     outcome (_load_parquet_series L W p) = inl (ValueError_no_close cols) /\
     incl (columns df) cols /\ In col_date cols).
Proof.
  intros Hex Hread Hreset df.
  unfold _load_parquet_series, read_and_reset_index, outcome.
  unfold bind, ret, raise, emit, of_result.
  rewrite Hex, Hread, Hreset. cbn [negb].
  fold (reset_frame raw). fold df. clearbody df.
  split.
  - intros -> ->. reflexivity.
  - intros Hdate HC Hc.
    assert (Hdone : forall v,
               has_col col_Close (set_col col_date v df) = false /\
               has_col col_close (set_col col_date v df) = false).
    { intros v. rewrite !has_col_set_col by reflexivity. now split. }
    destruct (has_col col_trade_time df).
    + destruct (Hdone (map (to_datetime_cell L) (get_col col_trade_time df)))
        as [H1 H2].
      rewrite H1, H2. cbn. eexists. split; [reflexivity|].
      apply columns_set_col.
    + destruct Hdate as [Hd | Hd]; [discriminate|]. rewrite Hd.
      destruct (Hdone (map (to_datetime_cell L) (get_col col_date df)))
        as [H1 H2].
      rewrite H1, H2. cbn. eexists. split; [reflexivity|].
      apply columns_set_col.
Qed.

(** X12: a source file with neither a [trade_time] nor a [date] column,
    or with a time column but neither [Close] nor [close], stops the
    run: the error names the columns that were found, nothing is
    written and the exit code is 1. *)
Theorem missing_columns_stop_the_run
    (L : Lib) (O : Os) (W : World) (args : Args) (raw : dataframe) :
  path_exists W (parquet_path O args) = true ->
  read_parquet W (parquet_path O args) = inr raw ->
  has_col (reset_index_label raw) (data raw) = false ->
  let df := reset_frame raw in
  (has_col col_trade_time df = false /\ has_col col_date df = false \/
   has_col col_Close df = false /\ has_col col_close df = false) ->
  (exists cols,
     incl (columns df) cols /\
     (In (MsgErrorReadingParquet (ValueError_no_date cols))
         (printed L O W args) \/
      In (MsgErrorReadingParquet (ValueError_no_close cols))
         (printed L O W args))) /\
  csv_written L O W args = [] /\
  exit_code L O W args = 1%Z.
Proof.
  intros Hex Hread Hreset df Hmissing.
  destruct (@load_after_read L W _ raw Hex Hread Hreset) as [Hnd Hnc].
  fold df in Hnd, Hnc.
  pose proof (PrepareFacts.run_summary L O W args) as Hs.
  assert (Hl : exists cols,
             incl (columns df) cols /\
             (outcome (_load_parquet_series L W (parquet_path O args))
              = inl (ValueError_no_date cols) \/
              outcome (_load_parquet_series L W (parquet_path O args))
              = inl (ValueError_no_close cols))).
  { destruct (has_col col_trade_time df) eqn:Et.
    - destruct Hmissing as [[Hx _] | [HC Hc]]; [discriminate|].
      destruct Hnc as (cols & Hout & Hincl & _); auto.
      exists cols. auto.
    - destruct (has_col col_date df) eqn:Ed.
      + destruct Hmissing as [[_ Hx] | [HC Hc]]; [discriminate|].
        destruct Hnc as (cols & Hout & Hincl & _); auto.
        exists cols. auto.
      + exists (columns df). split; [apply incl_refl|]. left. auto. }
  destruct Hl as (cols & Hincl & [Hl | Hl]); rewrite Hl in Hs;
    destruct Hs as (Hcsv & Hexit & Hpr);
    (split; [exists cols; split; [exact Hincl|]; tauto | now split]).
Qed.

Lemma missing_columns_stop_the_run_witness :
  (exists cols,
     incl (columns (reset_frame stored_without_time)) cols /\
     (In (MsgErrorReadingParquet (ValueError_no_date cols))
         (printed Examples.lib_stable Examples.posix
            (world_with stored_without_time) Scenarios.args) \/
      In (MsgErrorReadingParquet (ValueError_no_close cols))
         (printed Examples.lib_stable Examples.posix
            (world_with stored_without_time) Scenarios.args))) /\
  csv_written Examples.lib_stable Examples.posix
    (world_with stored_without_time) Scenarios.args = [] /\
  exit_code Examples.lib_stable Examples.posix
    (world_with stored_without_time) Scenarios.args = 1%Z.
Proof.
  apply (@missing_columns_stop_the_run Examples.lib_stable Examples.posix
           (world_with stored_without_time) Scenarios.args
           stored_without_time).
  - reflexivity.
  - reflexivity.
  - reflexivity.
  - left. split; reflexivity.
Defined.

(** ** The name of the source file *)

Lemma startswith_length (p s : str) :
  startswith p s = true -> List.length p <= List.length s.
Proof.
  revert s. induction p as [|a p IH]; intros s H; simpl; [lia|].
  destruct s as [|b s]; [discriminate|].
  simpl in H. apply andb_true_iff in H. destruct H as [_ H].
  specialize (IH _ H). simpl. lia.
Qed.

Lemma startswith_app_l (p s suf : str) :
  startswith p s = true -> startswith p (s ++ suf) = true.
Proof.
  revert s. induction p as [|a p IH]; intros s H; [reflexivity|].
  destruct s as [|b s]; [discriminate|].
  simpl in *. apply andb_true_iff in H. destruct H as [Hab H].
  now rewrite Hab, IH.
Qed.

Lemma startswith_refl (s : str) : startswith s s = true.
Proof.
  induction s as [|c s IH]; [reflexivity|].
  simpl. now rewrite Ascii.eqb_refl.
Qed.

Lemma startswith_same_length (p s : str) :
  startswith p s = true -> List.length s <= List.length p -> s = p.
Proof.
  revert s. induction p as [|a p IH]; intros s H Hlen.
  - destruct s; [reflexivity | simpl in Hlen; lia].
  - destruct s as [|b s]; [discriminate|].
    simpl in *. apply andb_true_iff in H. destruct H as [Hab H].
    apply Ascii.eqb_eq in Hab. subst b. f_equal. apply IH; [exact H | lia].
Qed.

Lemma endswith_app (x suf : str) : endswith (x ++ suf) suf = true.
Proof.
  unfold endswith. rewrite length_app.
  replace (List.length x + List.length suf - List.length suf)
    with (List.length x) by lia.
  rewrite skipn_app, skipn_all, Nat.sub_diag. simpl.
  rewrite startswith_refl, andb_true_r. apply Nat.leb_le. lia.
Qed.

Lemma endswith_split (s suf : str) :
  endswith s suf = true -> exists x, s = x ++ suf.
Proof.
  unfold endswith. intros H. apply andb_true_iff in H.
  destruct H as [Hlen H]. apply Nat.leb_le in Hlen.
  exists (firstn (List.length s - List.length suf) s).
  rewrite <- (firstn_skipn (List.length s - List.length suf) s) at 1.
  f_equal. apply startswith_same_length; [exact H|].
  rewrite length_skipn. lia.
Qed.

(** Replacing in front of a suffix that holds no match, and that no
    match runs into, leaves the suffix where it is. *)
Lemma replace_from_app (old new s suf : str) (k : nat) :
  (forall j, j < List.length old -> startswith (skipn j old) suf = false) ->
  occurs old suf = false ->
  k <= List.length s ->
  replace_from old new k (s ++ suf) = replace_from old new k s ++ suf.
Proof.
  intros Hstraddle Hsuf. revert k.
  induction s as [|c t IH]; intros k Hk.
  - simpl in Hk. assert (k = 0) by lia. subst k.
    simpl. now apply PyStrFacts.replace_absent.
  - destruct k as [|k].
    + change ((c :: t) ++ suf) with (c :: (t ++ suf)).
      cbn [replace_from].
      destruct (startswith old (c :: t)) eqn:E.
      * change (c :: t ++ suf) with ((c :: t) ++ suf).
        rewrite (startswith_app_l _ _ suf E).
        rewrite IH, app_assoc; [reflexivity|].
        apply startswith_length in E. simpl in E. lia.
      * destruct (startswith old (c :: t ++ suf)) eqn:E'.
        -- change (c :: t ++ suf) with ((c :: t) ++ suf) in E'.
           destruct (PyStrFacts.startswith_app _ _ _ E')
             as [H | (j & Hj & H)]; [congruence|].
           rewrite (Hstraddle j Hj) in H. discriminate.
        -- rewrite IH by lia. reflexivity.
    + simpl. apply IH. simpl in Hk. lia.
Qed.

(** X13: whatever the symbol, the name of the file that is looked for
    ends in ".parquet". *)
Theorem parquet_name_ends_in_parquet (args : Args) :
  endswith (parquet_name args) (lit ".parquet") = true.
Proof.
  unfold parquet_name.
  assert (H : exists x,
             (if negb (endswith (strip (symbol args)) (lit ".parquet"))
              then strip (symbol args) ++ lit ".parquet"
              else strip (symbol args)) = x ++ lit ".parquet").
  { destruct (endswith (strip (symbol args)) (lit ".parquet")) eqn:E.
    - now apply endswith_split.
    - now exists (strip (symbol args)). }
  destruct H as [x ->]. unfold replace.
  rewrite replace_from_app.
  - apply endswith_app.
  - apply no_straddling_match.
  - reflexivity.
  - lia.
Qed.

(** ** The provider's code of a symbol *)
















(** ** explore_data.py when something goes wrong *)

(** X15: explore_data.py ends normally whatever the listing and the
    reader do.  A listing that fails is reported and nothing is read; an
    empty listing is counted and nothing else happens; a first parquet
    file that cannot be read is reported, as an import error when it is
    one, and neither columns nor rows are printed. *)
Theorem explore_reports_failures (O : Os) (W : World) :
  outcome (Explore.script O W) = inr tt /\
  (forall e,
     listdir W Explore.data_dir = inl e ->
     trace (Explore.script O W)
     = [ListDir Explore.data_dir; Print (MsgError e)]) /\
  (listdir W Explore.data_dir = inr [] ->
   trace (Explore.script O W)
   = [ListDir Explore.data_dir; Print (MsgFound 0)]) /\
  (forall files first_file rest e,
     listdir W Explore.data_dir = inr files ->
     filter (fun f => endswith f (lit ".parquet")) files
     = first_file :: rest ->
     read_parquet W (path_join O Explore.data_dir first_file) = inl e ->
     trace (Explore.script O W)
     = [ListDir Explore.data_dir;
        Print (MsgFound (List.length files));
        Print (MsgReadingFirst first_file);
        ReadParquet (path_join O Explore.data_dir first_file);
        Print (match e with
               | ImportError _ => MsgImportError e
               | _ => MsgErrorReadingParquet e
               end)]).
Proof.
  split; [|split; [|split]].
  - unfold Explore.script.
    destruct (listdir W Explore.data_dir) as [e | files]; [reflexivity|].
    destruct files as [|f fs]; [reflexivity|].
    unfold bind, emit, of_result, try_except, outcome. cbn [fst snd app].
    destruct (filter _ (f :: fs)) as [|first_file rest]; [reflexivity|].
    destruct (show_file_trace W (path_join O Explore.data_dir first_file))
      as (tr & Hshow & _). cbn [fst snd app]. now rewrite Hshow.
  - intros e He. unfold Explore.script. now rewrite He.
  - intros He. unfold Explore.script. now rewrite He.
  - intros files first_file rest e Hl Hf Hr.
    unfold Explore.script. rewrite Hl.
    destruct files as [|f fs]; [discriminate|].
    unfold bind, emit, of_result, try_except, trace. cbn [fst snd app].
    rewrite Hf. unfold Explore.show_file. rewrite Hr.
    now destruct e.
Qed.

Lemma explore_reports_failures_witness :
  trace (Explore.script Examples.posix world_unlistable)
  = [ListDir Explore.data_dir;
     Print (MsgError (LibraryError (lit "no such directory")))] /\
  trace (Explore.script Examples.posix world_empty_dir)
  = [ListDir Explore.data_dir; Print (MsgFound 0)] /\
  trace (Explore.script Examples.posix world_no_engine)
  = [ListDir Explore.data_dir;
     Print (MsgFound 2);
     Print (MsgReadingFirst (lit "a.parquet"));
     ReadParquet (Examples.posix_join Explore.data_dir (lit "a.parquet"));
     Print (MsgImportError (ImportError (lit "pyarrow")))].
Proof.
  destruct (explore_reports_failures Examples.posix world_unlistable)
    as (_ & H1 & _).
  destruct (explore_reports_failures Examples.posix world_empty_dir)
    as (_ & _ & H2 & _).
  destruct (explore_reports_failures Examples.posix world_no_engine)
    as (_ & _ & _ & H3).
  split; [exact (H1 _ eq_refl)|].
  split; [exact (H2 eq_refl)|].
  exact (H3 _ _ _ _ eq_refl eq_refl eq_refl).
Defined.

(** ** The size of the CSV and the prices fetched *)

(** X16: the number of rows that a run announces is the number of rows
    it writes, and for a positive [--tail] N that number is at most N. *)
Theorem announced_rows_are_written
    (L : Lib) (O : Os) (W : World) (args : Args) (p : str) (t : list row) :
  In (p, t) (csv_written L O W args) ->
  In (MsgSaving (List.length t) p) (printed L O W args) /\
  ((0 < tail_arg args)%Z -> Z.of_nat (List.length t) <= tail_arg args)%Z.
Proof.
  intros Hin.
  destruct (written_is_suffix _ _ _ _ _ _ Hin)
    as (-> & local_df & merged & dropped & Hl & Hm & _ & Ht).
  split.
  - destruct (_load_parquet_series L W (parquet_path O args))
      as [tr r] eqn:El. cbn [outcome snd] in Hl. subst r.
    destruct (merge_today L W args local_df) as [tr' r] eqn:Em.
    cbn [outcome snd] in Hm. subst r.
    unfold printed.
    rewrite (@PrepareFacts.main_load_ok L O W args tr tr' local_df merged
               El Em).
    unfold trace. cbn [fst]. apply in_flat_map.
    exists (Print (MsgSaving (List.length t) (output_csv_path O args))).
    split; [|now left].
    right. right. apply in_or_app. right. apply in_or_app. right.
    left. unfold final_table. now rewrite <- Ht.
  - intros Hn. rewrite Ht. unfold truncate, tail.
    assert (E0 : (tail_arg args =? 0)%Z = false) by (apply Z.eqb_neq; lia).
    assert (E1 : (0 <? tail_arg args)%Z = true) by (apply Z.ltb_lt; lia).
    rewrite E0, E1. cbn [negb andb rows].
    rewrite PandasFacts.last_rows_length. lia.
Qed.

Lemma announced_rows_are_written_witness :
  In (MsgSaving 2 (lit "/srv/fincast/input/600869.SH.csv"))
     (printed Examples.lib_stable Examples.posix Scenarios.world
        Scenarios.args) /\
  ((0 < tail_arg Scenarios.args)%Z ->
   Z.of_nat 2 <= tail_arg Scenarios.args)%Z.
Proof.
  apply (@announced_rows_are_written Examples.lib_stable Examples.posix
           Scenarios.world Scenarios.args
           (lit "/srv/fincast/input/600869.SH.csv")
           [(Timestamp 3, Num 99); (Timestamp 4, Num 40)]).
  vm_compute. left. reflexivity.
Defined.

Lemma today_table_prices (L : Lib) (df : frame) (t : table) (r : row) :
  sort_values_spec L ->
  outcome (today_table L df) = inr t ->
  In r (rows t) -> exists x, Close r = Num x.
Proof.
  intros Hsort. unfold today_table, outcome.
  destruct (frame_len df =? 0); simpl.
  - intros H. injection H as <-. contradiction.
  - destruct (if has_col col_ak_time df then _ else _) as [ct|];
      [|discriminate].
    destruct (if has_col col_ak_close df then _ else _) as [cc|];
      [|discriminate].
    simpl. intros H. injection H as <-. simpl. intros Hr.
    change (In r (tidy L (combine (map (to_datetime_cell L) (get_col ct df))
                            (map (to_numeric_cell L) (get_col cc df)))))
      in Hr.
    apply (PrepareFacts.tidy_In Hsort) in Hr. destruct Hr as (Hr & _ & Hc).
    destruct r as [d c]. apply in_combine_r in Hr.
    apply in_map_iff in Hr. destruct Hr as (c0 & Hc0 & _).
    simpl in *. unfold to_numeric_cell in Hc0.
    destruct (to_numeric_scalar L c0); [eauto | congruence].
Qed.

(** X17: every price of a table returned by
    [_fetch_today_1m_from_akshare] is a number. *)
Theorem fetched_prices_are_numbers
    (L : Lib) (W : World) (s : str) (t : table) (r : row) :
  sort_values_spec L ->
  outcome (_fetch_today_1m_from_akshare L W s) = inr t ->
  In r (rows t) -> exists x, Close r = Num x.
Proof.
  intros Hsort. unfold _fetch_today_1m_from_akshare.
  destruct (stock_zh_a_hist_min_em W) as [call|]; [|discriminate].
  destruct (call s (today W)) as [e | | df | [df|]]; simpl.
  - discriminate.
  - intros H. injection H as <-. contradiction.
  - pose proof (@today_table_prices L df t r Hsort) as Hd.
    destruct (today_table L df) as [tr o]. simpl in *. exact Hd.
  - pose proof (@today_table_prices L df t r Hsort) as Hd.
    destruct (today_table L df) as [tr o]. simpl in *. exact Hd.
  - intros H. injection H as <-. contradiction.
Qed.

Lemma fetched_prices_are_numbers_witness :
  exists x, Close (Timestamp 3, Num 99) = Num x.
Proof.
  apply (@fetched_prices_are_numbers Examples.lib_stable Scenarios.world
           (lit "600869")
           {| date_dtype := Datetime64;
              rows := [(Timestamp 3, Num 99); (Timestamp 4, Num 40)] |}).
  - exact ExamplesFacts.lib_stable_spec.
  - vm_compute. reflexivity.
  - left. reflexivity.
Defined.
